(** * TCG dashboard: table loaders, quarter filter and KPI cards

    A shallow embedding of [data_visualization/dashboard.py]: the six cached
    table loaders, the quarter multi-select with the filter step that follows
    it, and the KPI cards of the Projects, Members and GBMs tabs.

    The script is a Streamlit page: it runs top to bottom on every
    interaction.  Its effects are kept explicit here: the process environment
    and the backend are read from a [World], and the page, the cache of
    [st.cache_data] and the list of backend requests are threaded through a
    [Session].  The pandas operations the script calls are modelled in module
    [Pd], the Python ones (true division, the [.1f] format) in module [Py]. *)

From Stdlib Require Import ZArith List String Ascii Bool Lia.
From Stdlib Require Import Floats.PrimFloat Floats.FloatOps Floats.SpecFloat.
From Stdlib Require Import Numbers.Cyclic.Int63.Uint63.
From Stdlib Require Import DecimalString.
Import ListNotations.
Local Open Scope string_scope.
Local Open Scope Z_scope.

(** ** Python values *)

Module Py.

(** The exceptions that the modelled operations raise. *)
Inductive exn : Type :=
| KeyError (key : string)
| TypeError
| AttributeError.

Inductive result (A : Type) : Type :=
| Ok (a : A)
| Raise (e : exn).
Arguments Ok {A} a.
Arguments Raise {A} e.

Definition bind {A B : Type} (r : result A) (k : A -> result B) : result B :=
  match r with
  | Ok a => k a
  | Raise e => Raise e
  end.

(** [not v] for the value of [os.getenv]: [None] and the empty string are
    both false. *)
Definition falsy (v : option string) : bool :=
  match v with
  | None => true
  | Some s => String.eqb s ""
  end.

(** An integer as a binary64 float, as [int.__truediv__] and numpy convert
    it.  Exact below [2^53] and correctly rounded below [2^63], which covers
    every row count and every sum of flags of an in-memory table. *)
Definition float_of_Z (z : Z) : float :=
  if z <? 0 then PrimFloat.opp (PrimFloat.of_uint63 (Uint63.of_Z (- z)))
  else PrimFloat.of_uint63 (Uint63.of_Z z).

(** [a / b] on integers. *)
Definition truediv (a b : Z) : float :=
  PrimFloat.div (float_of_Z a) (float_of_Z b).

(** Nearest integer to [num / den], ties to the even one. *)
Definition round_half_even (num den : Z) : Z :=
  let q := num / den in
  match (2 * (num mod den)) ?= den with
  | Lt => q
  | Gt => q + 1
  | Eq => if Z.even q then q else q + 1
  end.

(** [|x| * 10] rounded to an integer, for [|x| = m * 2^e]: the format
    rounds the exact binary value. *)
Definition tenths (m : positive) (e : Z) : Z :=
  if 0 <=? e then Zpos m * 2 ^ e * 10
  else round_half_even (Zpos m * 10) (2 ^ (- e)).

Definition digits (z : Z) : string := NilZero.string_of_int (Z.to_int z).

Definition sign (s : bool) : string := if s then "-" else "".

(** [f"{x:.1f}"]. *)
Definition format_1f (x : float) : string :=
  match Prim2SF x with
  | S754_nan => "nan"
  | S754_infinity s => sign s ++ "inf"
  | S754_zero s => sign s ++ "0.0"
  | S754_finite s m e =>
      let t := tenths m e in
      sign s ++ digits (t / 10) ++ "." ++ digits (t mod 10)
  end.

(** ASCII lower case, and substring search: what a regular expression
    without metacharacters does under [re.IGNORECASE] on ASCII text. *)
Definition lower_ascii (c : ascii) : ascii :=
  let n := nat_of_ascii c in
  if (Nat.leb 65 n && Nat.leb n 90)%bool then ascii_of_nat (n + 32) else c.

Fixpoint lower (s : string) : string :=
  match s with
  | EmptyString => EmptyString
  | String c s' => String (lower_ascii c) (lower s')
  end.

Fixpoint contains (pat s : string) : bool :=
  String.prefix pat s ||
  match s with
  | EmptyString => false
  | String _ s' => contains pat s'
  end.

Definition search_ignorecase (pat s : string) : bool :=
  contains (lower pat) (lower s).

End Py.

Import Py.

Declare Scope py_scope.
Delimit Scope py_scope with py.
Notation "x <- r ;; k" := (Py.bind r (fun x => k))
  (at level 100, r at next level, right associativity) : py_scope.
Local Open Scope py_scope.

(** ** Tables

    A table is what [pd.DataFrame(data.data)] builds from the rows of a
    response: the column labels, and the rows as the records they came from.
    A record that lacks a column has the missing value there.  Cells are the
    JSON scalars of the backend; numbers are integers. *)

Module Pd.

Inductive cell : Type :=
| Null
| Bool (b : bool)
| Int (n : Z)
| Str (s : string).

Definition record : Type := list (string * cell).

Record DataFrame : Type := mkDataFrame
  { columns : list string;
    rows : list record }.

(** [pd.DataFrame()] *)
Definition DataFrame_empty : DataFrame := mkDataFrame [] [].

Definition has_name (c : string) (names : list string) : bool :=
  existsb (String.eqb c) names.

Definition add_keys (names : list string) (r : record) : list string :=
  fold_left
    (fun acc kv =>
       if has_name (fst kv) acc then acc else (acc ++ [fst kv])%list)
    r names.

(** [pd.DataFrame(data)] for a list of records: the columns are the keys
    in order of first appearance. *)
Definition from_records (data : list record) : DataFrame :=
  mkDataFrame (fold_left add_keys data []) data.

(** [len(df)] *)
Definition len (df : DataFrame) : Z := Z.of_nat (List.length (rows df)).

(** [df.empty]: some axis has length zero. *)
Definition empty (df : DataFrame) : bool :=
  Nat.eqb (List.length (columns df)) 0 || Nat.eqb (List.length (rows df)) 0.

(** [c in df.columns] *)
Definition has_column (c : string) (df : DataFrame) : bool :=
  has_name c (columns df).

Fixpoint field (c : string) (r : record) : cell :=
  match r with
  | [] => Null
  | (k, v) :: r' => if String.eqb k c then v else field c r'
  end.

(** [df[c]] *)
Definition column (df : DataFrame) (c : string) : result (list cell) :=
  if has_column c df then Ok (map (field c) (rows df))
  else Raise (KeyError c).

(** Cells as hash keys: Python equality, under which [True == 1]; the
    missing value is no key. *)
Inductive key : Type :=
| KNum (n : Z)
| KStr (s : string).

Definition key_of (v : cell) : option key :=
  match v with
  | Null => None
  | Bool b => Some (KNum (if b then 1 else 0))
  | Int n => Some (KNum n)
  | Str s => Some (KStr s)
  end.

Definition key_eqb (a b : key) : bool :=
  match a, b with
  | KNum n, KNum m => Z.eqb n m
  | KStr s, KStr t => String.eqb s t
  | _, _ => false
  end.

Definition cell_eqb (a b : cell) : bool :=
  match key_of a, key_of b with
  | Some x, Some y => key_eqb x y
  | None, None => true
  | _, _ => false
  end.

(** [col.isin(values)]; a missing cell matches a missing value. *)
Definition isin (values : list cell) (col : list cell) : list bool :=
  map (fun v => existsb (cell_eqb v) values) col.

Fixpoint select {A : Type} (mask : list bool) (l : list A) : list A :=
  match mask, l with
  | b :: mask', x :: l' => if b then x :: select mask' l' else select mask' l'
  | _, _ => []
  end.

(** [df[mask]]: the rows where the mask holds, under the same columns. *)
Definition getitem_mask (df : DataFrame) (mask : list bool) : DataFrame :=
  mkDataFrame (columns df) (select mask (rows df)).

(** [col.unique()]: first occurrences, in order. *)
Definition unique (col : list cell) : list cell :=
  fold_left
    (fun acc v => if existsb (cell_eqb v) acc then acc else (acc ++ [v])%list)
    col [].

Definition flag (b : bool) : Z := if b then 1 else 0.

(** [col.sum()] where the script goes on to divide it or to average it:
    flags count as 0 and 1, missing cells are skipped, and text ends in a
    [TypeError]. *)
Fixpoint sum (col : list cell) : result Z :=
  match col with
  | [] => Ok 0
  | v :: col' =>
      rest <- sum col' ;;
      match v with
      | Null => Ok rest
      | Bool b => Ok (flag b + rest)
      | Int n => Ok (n + rest)
      | Str _ => Raise TypeError
      end
  end.

(** The groups of [df.groupby(by)]: the distinct keys of the column, rows
    with a missing key dropped.  pandas sorts the groups by key; the
    script only averages over them, so they are left in order of first
    appearance. *)
Definition group_keys (col : list cell) : list key :=
  fold_left
    (fun acc v =>
       match key_of v with
       | None => acc
       | Some k => if existsb (key_eqb k) acc then acc else (acc ++ [k])%list
       end)
    col [].

Definition in_group (k : key) (v : cell) : bool :=
  match key_of v with
  | Some k' => key_eqb k k'
  | None => false
  end.

(** A series indexed by group. *)
Definition series : Type := list (key * Z).

(** [df.groupby(by).size()] *)
Definition groupby_size (df : DataFrame) (by_ : string) : result series :=
  ks <- column df by_ ;;
  Ok (map (fun k => (k, Z.of_nat (List.length (filter (in_group k) ks))))
          (group_keys ks)).

Fixpoint map_result {A B : Type} (f : A -> result B) (l : list A)
  : result (list B) :=
  match l with
  | [] => Ok []
  | x :: l' => y <- f x ;; ys <- map_result f l' ;; Ok (y :: ys)
  end.

(** [df.groupby(by)[c].sum()] *)
Definition groupby_sum (df : DataFrame) (by_ c : string) : result series :=
  ks <- column df by_ ;;
  vs <- column df c ;;
  map_result
    (fun k => s <- sum (select (map (in_group k) ks) vs) ;; Ok (k, s))
    (group_keys ks).

Definition total (s : series) : Z :=
  fold_right (fun kv acc => snd kv + acc) 0 s.

(** [s.mean()]: the sum over the count, in binary64. *)
Definition mean (s : series) : float :=
  truediv (total s) (Z.of_nat (List.length s)).

Definition is_null (v : cell) : bool :=
  match v with Null => true | _ => false end.
Definition is_bool (v : cell) : bool :=
  match v with Bool _ => true | _ => false end.
Definition is_int (v : cell) : bool :=
  match v with Int _ => true | _ => false end.
Definition is_str (v : cell) : bool :=
  match v with Str _ => true | _ => false end.

(** The [.str] accessor refuses a column whose values are inferred to be
    integers, floats or booleans: it accepts text, an all-missing column,
    and mixtures. *)
Definition str_accessor_ok (col : list cell) : bool :=
  existsb is_str col || forallb is_null col
  || (existsb is_int col && existsb is_bool col).

(** [col.str.contains(pat, case=False, na=False)] for a pattern without
    metacharacters: a cell that is not text gives [na], hence [False]. *)
Definition str_contains (pat : string) (col : list cell)
  : result (list bool) :=
  if str_accessor_ok col then
    Ok (map (fun v =>
               match v with
               | Str s => search_ignorecase pat s
               | _ => false
               end) col)
  else Raise AttributeError.

End Pd.

Import Pd.

(** ** The page *)

Module St.

(** The second argument of [st.metric]. *)
Inductive value : Type :=
| VInt (n : Z)
| VText (s : string).

Inductive element : Type :=
| Error (body : string)
| Metric (label : string) (v : value)
| Multiselect (label : string) (options default : list cell).

End St.

Import St.

(** ** The world outside and the state of the process

    A [World] is what the script reads: the environment variables, and what
    the backend answers to [create_client(SUPABASE_URL, SUPABASE_KEY)
    .table(t).select("*").execute()], either the rows of [data.data] or an
    exception, kept as the text that [str(e)] gives. *)

Inductive response : Type :=
| Rows (data : list record)
| Fails (message : string).

Record World : Type := mkWorld
  { getenv : string -> option string;
    execute : string -> response }.

(** What lives in the process: the entries of [st.cache_data] by function,
    the requests sent to the backend so far, and the elements on the page. *)
Record Session : Type := mkSession
  { cache : list (string * DataFrame);
    requests : list string;
    page : list element }.

(** A call returns, or [st.stop()] ends the run. *)
Inductive outcome (A : Type) : Type :=
| Returned (a : A)
| Stopped.
Arguments Returned {A} a.
Arguments Stopped {A}.

Definition script (A : Type) : Type := World -> Session -> outcome A * Session.

Definition st_error (body : string) (s : Session) : Session :=
  mkSession (cache s) (requests s) (page s ++ [Error body])%list.

Definition request (table : string) (s : Session) : Session :=
  mkSession (cache s) (requests s ++ [table])%list (page s).

Definition store (fn : string) (df : DataFrame) (s : Session) : Session :=
  mkSession ((fn, df) :: cache s) (requests s) (page s).

Fixpoint cached (fn : string) (entries : list (string * DataFrame))
  : option DataFrame :=
  match entries with
  | [] => None
  | (f, df) :: entries' =>
      if String.eqb f fn then Some df else cached fn entries'
  end.

(** [@st.cache_data] on a function without parameters: the entry is keyed by
    the function alone, and without [ttl] it lives as long as the process.
    A hit returns the stored table and leaves the body unrun; a call that
    does not return stores nothing. *)
Definition cache_data (fn : string) (body : script DataFrame)
  : script DataFrame :=
  fun w s =>
    match cached fn (cache s) with
    | Some df => (Returned df, s)
    | None =>
        match body w s with
        | (Returned df, s') => (Returned df, store fn df s')
        | (Stopped, s') => (Stopped, s')
        end
    end.

(** ** The six loaders *)

Definition load_projects : script DataFrame :=
  cache_data "load_projects" (fun w s =>
    let SUPABASE_URL := getenv w "SUPABASE_URL" in
    let SUPABASE_KEY := getenv w "SUPABASE_KEY" in
    if falsy SUPABASE_URL || falsy SUPABASE_KEY then
      (Stopped,
       st_error "Please set SUPABASE_URL and SUPABASE_KEY in your .env file" s)
    else
      match execute w "project" with
      | Rows data => (Returned (from_records data), request "project" s)
      | Fails e =>
          (Returned DataFrame_empty,
           st_error ("Error loading project data: " ++ e)
                    (request "project" s))
      end).

Definition load_members : script DataFrame :=
  cache_data "load_members" (fun w s =>
    let SUPABASE_URL := getenv w "SUPABASE_URL" in
    let SUPABASE_KEY := getenv w "SUPABASE_KEY" in
    if falsy SUPABASE_URL || falsy SUPABASE_KEY then
      (Returned DataFrame_empty, s)
    else
      match execute w "member" with
      | Rows data => (Returned (from_records data), request "member" s)
      | Fails e => (Returned DataFrame_empty, request "member" s)
      end).

Definition load_companies : script DataFrame :=
  cache_data "load_companies" (fun w s =>
    let SUPABASE_URL := getenv w "SUPABASE_URL" in
    let SUPABASE_KEY := getenv w "SUPABASE_KEY" in
    if falsy SUPABASE_URL || falsy SUPABASE_KEY then
      (Returned DataFrame_empty, s)
    else
      match execute w "company" with
      | Rows data => (Returned (from_records data), request "company" s)
      | Fails e => (Returned DataFrame_empty, request "company" s)
      end).

Definition load_gbms : script DataFrame :=
  cache_data "load_gbms" (fun w s =>
    let SUPABASE_URL := getenv w "SUPABASE_URL" in
    let SUPABASE_KEY := getenv w "SUPABASE_KEY" in
    if falsy SUPABASE_URL || falsy SUPABASE_KEY then
      (Returned DataFrame_empty, s)
    else
      match execute w "gbm" with
      | Rows data => (Returned (from_records data), request "gbm" s)
      | Fails e => (Returned DataFrame_empty, request "gbm" s)
      end).

Definition load_attendance : script DataFrame :=
  cache_data "load_attendance" (fun w s =>
    let SUPABASE_URL := getenv w "SUPABASE_URL" in
    let SUPABASE_KEY := getenv w "SUPABASE_KEY" in
    if falsy SUPABASE_URL || falsy SUPABASE_KEY then
      (Returned DataFrame_empty, s)
    else
      match execute w "attendance" with
      | Rows data => (Returned (from_records data), request "attendance" s)
      | Fails e => (Returned DataFrame_empty, request "attendance" s)
      end).

Definition load_assignments : script DataFrame :=
  cache_data "load_assignments" (fun w s =>
    let SUPABASE_URL := getenv w "SUPABASE_URL" in
    let SUPABASE_KEY := getenv w "SUPABASE_KEY" in
    if falsy SUPABASE_URL || falsy SUPABASE_KEY then
      (Returned DataFrame_empty, s)
    else
      match execute w "assignment" with
      | Rows data => (Returned (from_records data), request "assignment" s)
      | Fails e => (Returned DataFrame_empty, request "assignment" s)
      end).

(** The six backend tables, with the loader, the cache entry and the table
    name of each. *)
Inductive table : Type :=
| project | member | company | gbm | attendance | assignment.

Definition load (t : table) : script DataFrame :=
  match t with
  | project => load_projects
  | member => load_members
  | company => load_companies
  | gbm => load_gbms
  | attendance => load_attendance
  | assignment => load_assignments
  end.

Definition loader_name (t : table) : string :=
  match t with
  | project => "load_projects"
  | member => "load_members"
  | company => "load_companies"
  | gbm => "load_gbms"
  | attendance => "load_attendance"
  | assignment => "load_assignments"
  end.

Definition table_name (t : table) : string :=
  match t with
  | project => "project"
  | member => "member"
  | company => "company"
  | gbm => "gbm"
  | attendance => "attendance"
  | assignment => "assignment"
  end.

Definition secondary (t : table) : bool :=
  match t with
  | project => false
  | _ => true
  end.

(** Both credentials are set. *)
Definition configured (w : World) : bool :=
  negb (falsy (getenv w "SUPABASE_URL") || falsy (getenv w "SUPABASE_KEY")).

(** Sequencing of calls: a stopped run goes no further. *)
Definition and_then {A B : Type} (c : script A) (k : A -> script B)
  : script B :=
  fun w s =>
    match c w s with
    | (Returned a, s') => k a w s'
    | (Stopped, s') => (Stopped, s')
    end.

Record Tables : Type := mkTables
  { projects_df : DataFrame;
    members_df : DataFrame;
    companies_df : DataFrame;
    gbms_df : DataFrame;
    attendance_df : DataFrame;
    assignments_df : DataFrame }.

(** The six calls at the top of the script, in order. *)
Definition load_tables : script Tables :=
  and_then load_projects (fun p =>
  and_then load_members (fun m =>
  and_then load_companies (fun c =>
  and_then load_gbms (fun g =>
  and_then load_attendance (fun a =>
  and_then load_assignments (fun x =>
  fun _ s => (Returned (mkTables p m c g a x), s))))))).

(** ** The quarter filter *)

Section Filters.

(** Python's [sorted] on the distinct quarter ids: it returns them in
    order, or raises [TypeError] on values it cannot compare. *)
Variable sorted : list cell -> result (list cell).

Definition quarter_choices (projects_df : DataFrame) : result (list cell) :=
  if has_column "quarter_id" projects_df then
    quarter_id <- column projects_df "quarter_id" ;;
    sorted (unique quarter_id)
  else Ok [].

(** The first filter column: the elements it puts on the page and the
    value of [selected_quarters].  [picked] is what the user has chosen in
    the widget, [None] while it is untouched: the widget then returns its
    default. *)
Definition filter_col1 (projects_df : DataFrame) (picked : option (list cell))
  : result (list element * list cell) :=
  if negb (empty projects_df) && has_column "quarter_id" projects_df then
    options <- quarter_choices projects_df ;;
    default <- quarter_choices projects_df ;;
    Ok ([Multiselect "Select Quarters" options default],
        match picked with
        | Some chosen => chosen
        | None => default
        end)
  else Ok ([], []).

End Filters.

(** The options that the elements of a block offer for selection. *)
Definition offered (block : list element) : list cell :=
  flat_map (fun e =>
              match e with
              | Multiselect _ options _ => options
              | _ => []
              end) block.

(** The filter step. *)
Definition filtered_projects (projects_df : DataFrame)
  (selected_quarters : list cell) : result DataFrame :=
  if negb (empty projects_df) && has_column "quarter_id" projects_df then
    match selected_quarters with
    | [] => Ok projects_df
    | _ :: _ =>
        quarter_id <- column projects_df "quarter_id" ;;
        Ok (getitem_mask projects_df (isin selected_quarters quarter_id))
    end
  else Ok projects_df.

(** The filter section as a whole: the widget, then the filter step on what
    the widget returned. *)
Definition filter_section (sorted : list cell -> result (list cell))
  (projects_df : DataFrame) (picked : option (list cell))
  : result (list element * DataFrame) :=
  col1 <- filter_col1 sorted projects_df picked ;;
  shown <- filtered_projects projects_df (snd col1) ;;
  Ok (fst col1, shown).

(** ** KPI cards of the Projects tab *)

Definition NA : value := VText "N/A".

Definition active_projects_kpi (filtered_projects : DataFrame)
  : result element :=
  let active_projects :=
    if negb (empty filtered_projects) then len filtered_projects else 0 in
  Ok (Metric "Active Projects" (VInt active_projects)).

(** The inner branch of the second card: the mean number of assignment rows
    per project. *)
Definition avg_team_size (assignments_df : DataFrame) : result float :=
  if negb (empty assignments_df) then
    project_team_sizes <- groupby_size assignments_df "project_id" ;;
    Ok (if 0 <? Z.of_nat (List.length project_team_sizes)
        then mean project_team_sizes
        else float_of_Z 0)
  else Ok (float_of_Z 0).

Definition avg_team_size_kpi (filtered_projects assignments_df : DataFrame)
  : result element :=
  if negb (empty filtered_projects)
     && has_column "project_manager" filtered_projects then
    size <- avg_team_size assignments_df ;;
    Ok (Metric "Avg Team Size" (VText (format_1f size)))
  else Ok (Metric "Avg Team Size" NA).

Definition projects_per_company_kpi (filtered_projects companies_df : DataFrame)
  : result element :=
  if negb (empty companies_df) && negb (empty filtered_projects) then
    let projects_per_company :=
      if 0 <? len companies_df
      then truediv (len filtered_projects) (len companies_df)
      else float_of_Z 0 in
    Ok (Metric "Projects per Company" (VText (format_1f projects_per_company)))
  else Ok (Metric "Projects per Company" NA).

Definition donated_projects_kpi (filtered_projects : DataFrame)
  : result element :=
  if negb (empty filtered_projects)
     && has_column "donated" filtered_projects then
    donated_count <-
      (if has_column "donated" filtered_projects then
         donated <- column filtered_projects "donated" ;; Pd.sum donated
       else Ok 0) ;;
    let donated_pct :=
      if 0 <? len filtered_projects
      then PrimFloat.mul (truediv donated_count (len filtered_projects))
                         (float_of_Z 100)
      else float_of_Z 0 in
    Ok (Metric "Donated Projects" (VText (format_1f donated_pct ++ "%")))
  else Ok (Metric "Donated Projects" NA).

(** The four cards in the order the script renders them; an exception in
    one ends the run before the next. *)
Definition tab1_kpis (filtered_projects assignments_df companies_df : DataFrame)
  : result (list element) :=
  k1 <- active_projects_kpi filtered_projects ;;
  k2 <- avg_team_size_kpi filtered_projects assignments_df ;;
  k3 <- projects_per_company_kpi filtered_projects companies_df ;;
  k4 <- donated_projects_kpi filtered_projects ;;
  Ok [k1; k2; k3; k4].

(** ** KPI card of the Members tab *)

Definition associates_analysts_kpi (members_df : DataFrame) : result element :=
  if negb (empty members_df) && has_column "role" members_df then
    role <- column members_df "role" ;;
    is_associate <- str_contains "Associate" role ;;
    let associates := len (getitem_mask members_df is_associate) in
    is_analyst <- str_contains "Analyst" role ;;
    let analysts := len (getitem_mask members_df is_analyst) in
    Ok (Metric "Associates & Analysts" (VInt (associates + analysts)))
  else Ok (Metric "Associates & Analysts" NA).

(** ** KPI cards of the GBMs tab *)

Definition gbm_attendance_kpi (attendance_df members_df : DataFrame)
  : result element :=
  if negb (empty attendance_df) && negb (empty members_df) then
    let total_possible := len attendance_df in
    attended <-
      (if has_column "status" attendance_df then
         status <- column attendance_df "status" ;; Pd.sum status
       else Ok 0) ;;
    let attendance_pct :=
      if 0 <? total_possible
      then PrimFloat.mul (truediv attended total_possible) (float_of_Z 100)
      else float_of_Z 0 in
    Ok (Metric "GBM Attendance" (VText (format_1f attendance_pct ++ "%")))
  else Ok (Metric "GBM Attendance" NA).

Definition avg_attendance_kpi (attendance_df members_df : DataFrame)
  : result element :=
  if negb (empty attendance_df) && negb (empty members_df) then
    if has_column "gbm_id" attendance_df
       && has_column "status" attendance_df then
      gbm_attendance <- groupby_sum attendance_df "gbm_id" "status" ;;
      let avg_attendance :=
        if 0 <? Z.of_nat (List.length gbm_attendance)
        then mean gbm_attendance
        else float_of_Z 0 in
      Ok (Metric "Avg Attendance/GBM" (VText (format_1f avg_attendance)))
    else Ok (Metric "Avg Attendance/GBM" NA)
  else Ok (Metric "Avg Attendance/GBM" NA).

(** The cards of the Projects tab for the loaded tables and a selection. *)
Definition projects_tab (t : Tables) (selected_quarters : list cell)
  : result (list element) :=
  shown <- filtered_projects (projects_df t) selected_quarters ;;
  tab1_kpis shown (assignments_df t) (companies_df t).

(** ** The other cards of the Members, Companies and GBMs tabs *)

Definition total_members_kpi (members_df : DataFrame) : result element :=
  if negb (empty members_df) then
    let total_members := len members_df in
    Ok (Metric "Total Members" (VInt total_members))
  else Ok (Metric "Total Members" NA).

(** [col.dtype == bool]: every cell of the column is a flag. *)
Definition dtype_is_bool (col : list cell) : bool := forallb is_bool col.

(** [col == v], cell by cell, with Python equality. *)
Definition eq_scalar (v : cell) (col : list cell) : list bool :=
  map (fun c => cell_eqb c v) col.

Definition active_members_kpi (members_df : DataFrame) : result element :=
  if negb (empty members_df) && has_column "status" members_df then
    status <- column members_df "status" ;;
    active_members <-
      (if dtype_is_bool status then Pd.sum status
       else Ok (len (getitem_mask members_df (eq_scalar (Bool true) status)))) ;;
    Ok (Metric "Active Members" (VInt active_members))
  else Ok (Metric "Active Members" NA).

(** The four cards of the Members tab, in order; the last is a fixed dash. *)
Definition tab2_kpis (members_df : DataFrame) : result (list element) :=
  k1 <- total_members_kpi members_df ;;
  k2 <- associates_analysts_kpi members_df ;;
  k3 <- active_members_kpi members_df ;;
  Ok [k1; k2; k3; Metric "Active Associates" (VText "-")].

Definition total_companies_kpi (companies_df : DataFrame) : result element :=
  if negb (empty companies_df) then
    let total_companies := len companies_df in
    Ok (Metric "Total Companies" (VInt total_companies))
  else Ok (Metric "Total Companies" NA).

Definition avg_projects_company_kpi (filtered_projects companies_df : DataFrame)
  : result element :=
  if negb (empty filtered_projects) && negb (empty companies_df) then
    let projects_per_company :=
      if 0 <? len companies_df
      then truediv (len filtered_projects) (len companies_df)
      else float_of_Z 0 in
    Ok (Metric "Avg Projects/Company" (VText (format_1f projects_per_company)))
  else Ok (Metric "Avg Projects/Company" NA).

Definition donated_pct_kpi (filtered_projects : DataFrame) : result element :=
  if negb (empty filtered_projects)
     && has_column "donated" filtered_projects then
    donated_pct <-
      (if 0 <? len filtered_projects then
         donated <- column filtered_projects "donated" ;;
         donated_sum <- Pd.sum donated ;;
         Ok (PrimFloat.mul (truediv donated_sum (len filtered_projects))
                           (float_of_Z 100))
       else Ok (float_of_Z 0)) ;;
    Ok (Metric "Donated %" (VText (format_1f donated_pct ++ "%")))
  else Ok (Metric "Donated %" NA).

(** The four cards of the Companies tab. *)
Definition tab3_kpis (filtered_projects companies_df : DataFrame)
  : result (list element) :=
  k1 <- total_companies_kpi companies_df ;;
  k2 <- avg_projects_company_kpi filtered_projects companies_df ;;
  k3 <- donated_pct_kpi filtered_projects ;;
  Ok [k1; k2; k3; Metric "Project Donated %" (VText "-")].

Definition total_gbms_kpi (gbms_df : DataFrame) : result element :=
  if negb (empty gbms_df) then
    let total_gbms := len gbms_df in
    Ok (Metric "Total GBMs" (VInt total_gbms))
  else Ok (Metric "Total GBMs" NA).

(** The four cards of the GBMs tab. *)
Definition tab4_kpis (gbms_df attendance_df members_df : DataFrame)
  : result (list element) :=
  k1 <- total_gbms_kpi gbms_df ;;
  k2 <- gbm_attendance_kpi attendance_df members_df ;;
  k3 <- avg_attendance_kpi attendance_df members_df ;;
  Ok [k1; k2; k3; Metric "Attendance Prediction" (VText "-")].

(** ** Chart data

    The table behind a bar chart, or [None] where the script draws the
    placeholder instead. *)

(** Projects per Quarter *)
Definition quarter_counts (filtered_projects : DataFrame)
  : result (option series) :=
  if negb (empty filtered_projects)
     && has_column "quarter_id" filtered_projects then
    counts <- groupby_size filtered_projects "quarter_id" ;;
    Ok (Some counts)
  else Ok None.

(** GBMs per Quarter *)
Definition gbm_counts (gbms_df : DataFrame) : result (option series) :=
  if negb (empty gbms_df) && has_column "quarter_id" gbms_df then
    counts <- groupby_size gbms_df "quarter_id" ;;
    Ok (Some counts)
  else Ok None.

(** The cards of the three other tabs for the loaded tables. *)
Definition members_tab (t : Tables) : result (list element) :=
  tab2_kpis (members_df t).

Definition companies_tab (t : Tables) (selected_quarters : list cell)
  : result (list element) :=
  shown <- filtered_projects (projects_df t) selected_quarters ;;
  tab3_kpis shown (companies_df t).

Definition gbms_tab (t : Tables) : result (list element) :=
  tab4_kpis (gbms_df t) (attendance_df t) (members_df t).

(** ** Vocabulary of the statements below *)

(** The same card under another label. *)
Definition relabel (label : string) (card : result element) : result element :=
  match card with
  | Ok (Metric _ v) => Ok (Metric label v)
  | other => other
  end.

(** A cell that holds a value. *)
Definition keyed (v : cell) : bool := negb (is_null v).

(** How many elements of a list pass a test. *)
Definition count {A : Type} (f : A -> bool) (l : list A) : Z :=
  Z.of_nat (List.length (filter f l)).

(** The role of a member matches a pattern. *)
Definition role_matches (pat : string) (r : record) : bool :=
  match field "role" r with
  | Str s => search_ignorecase pat s
  | _ => false
  end.

(** The row passes the quarter filter. *)
Definition quarter_in (selected_quarters : list cell) (r : record) : bool :=
  existsb (cell_eqb (field "quarter_id" r)) selected_quarters.


(** One step of [group_keys]. *)
Definition add_key (acc : list key) (v : cell) : list key :=
  match key_of v with
  | None => acc
  | Some k => if existsb (key_eqb k) acc then acc else (acc ++ [k])%list
  end.

(** The series that gives each key of [K] its value under [c]. *)
Definition tabulate (c : key -> Z) (K : list key) : series :=
  map (fun k => (k, c k)) K.

(** What a cell adds to a sum without text. *)
Definition amount (v : cell) : Z :=
  match v with
  | Bool b => flag b
  | Int n => n
  | _ => 0
  end.

(** The amounts of the rows that pass a test, added up. *)
Definition amount_where (c : string) (f : record -> bool) (rws : list record)
  : Z :=
  fold_right (fun r acc => (if f r then amount (field c r) else 0) + acc) 0 rws.

(** ** Statements of the specification that are compared with the code *)

(** A failed fetch of the project table stops the run. *)
Definition fetch_failure_is_fatal (w : World) (s : Session) : Prop :=
  forall e, execute w "project" = Fails e -> fst (load_projects w s) = Stopped.

(** Every card of a block shows the sentinel. *)
Definition all_NA (cards : result (list element)) : Prop :=
  exists l,
    cards = Ok l /\ Forall (fun c => exists label, c = Metric label NA) l.

(** ** Sample data *)

Definition fresh : Session := mkSession [] [] [].

Definition credentials (name : string) : option string :=
  if String.eqb name "SUPABASE_URL" then Some "https://tcg.supabase.co"
  else if String.eqb name "SUPABASE_KEY" then Some "anon-key"
  else None.

(** A configured process whose backend refuses every request. *)
Definition backend_down : World :=
  mkWorld credentials (fun _ => Fails "connection refused").

(** A configured process whose backend has one row in every table. *)
Definition backend_up : World :=
  mkWorld credentials (fun t => Rows [[("id", Int 1); ("name", Str t)]]).

Definition members4 : DataFrame :=
  from_records
    [ [("id", Int 1); ("role", Str "Associate")];
      [("id", Int 2); ("role", Str "associate")];
      [("id", Int 3); ("role", Str "Analyst")];
      [("id", Int 4); ("role", Str "Partner")] ].

Definition attendance3 : DataFrame :=
  from_records
    [ [("gbm_id", Int 1); ("status", Bool true)];
      [("gbm_id", Int 1); ("status", Bool false)];
      [("gbm_id", Int 2); ("status", Bool true)] ].

Definition projects3 : DataFrame :=
  from_records
    [ [("id", Int 1); ("quarter_id", Int 1); ("project_manager", Str "Ana");
       ("donated", Bool true)];
      [("id", Int 2); ("quarter_id", Int 2); ("project_manager", Str "Ben");
       ("donated", Bool false)];
      [("id", Int 3); ("quarter_id", Int 2); ("project_manager", Str "Ana");
       ("donated", Bool true)] ].

(** Projects without a quarter column. *)
Definition projects_unquartered : DataFrame :=
  from_records
    [ [("id", Int 1); ("project_manager", Str "Ana")];
      [("id", Int 2); ("project_manager", Str "Ben")] ].

Definition assignments4 : DataFrame :=
  from_records
    [ [("project_id", Int 1); ("member_id", Int 1)];
      [("project_id", Int 1); ("member_id", Int 2)];
      [("project_id", Int 2); ("member_id", Int 3)];
      [("project_id", Int 3); ("member_id", Int 1)] ].

Definition sample_tables : Tables :=
  mkTables DataFrame_empty members4 DataFrame_empty DataFrame_empty
           attendance3 assignments4.

(** ** Facts about tables *)

Lemma column_Ok (df : DataFrame) (c : string) (l : list cell) :
  column df c = Ok l ->
  has_column c df = true /\ map (field c) (rows df) = l.
Proof.
  unfold column. destruct (has_column c df); intros H.
  - inversion H. split; reflexivity.
  - discriminate H.
Qed.

(** Splits a hypothesis [column df c = Ok l] into its two halves. *)
Ltac rows_of H :=
  let Hc := fresh "Hc" in
  let Hm := fresh "Hm" in
  apply column_Ok in H; destruct H as [Hc Hm].

Lemma has_column_columns (df : DataFrame) (c : string) :
  has_column c df = true -> Nat.eqb (List.length (columns df)) 0 = false.
Proof.
  unfold has_column, has_name. destruct (columns df); simpl.
  - discriminate.
  - reflexivity.
Qed.

Lemma column_cons_not_empty (df : DataFrame) (c : string) (v : cell)
  (l : list cell) :
  column df c = Ok (v :: l) -> empty df = false.
Proof.
  intros H. apply column_Ok in H. destruct H as [Hc Hm].
  unfold empty. rewrite (has_column_columns df c Hc).
  destruct (rows df); [discriminate Hm | reflexivity].
Qed.

(** The filter step always returns a table. *)
Lemma filtered_projects_returns (projects : DataFrame) (sel : list cell) :
  exists shown, filtered_projects projects sel = Ok shown.
Proof.
  unfold filtered_projects.
  destruct (negb (empty projects) && has_column "quarter_id" projects) eqn:G.
  - destruct sel.
    + eexists; reflexivity.
    + apply andb_prop in G. destruct G as [_ G].
      unfold column. rewrite G. eexists; reflexivity.
  - eexists; reflexivity.
Qed.

(** ** Facts about the cache *)

Lemma cached_store (fn : string) (df : DataFrame) (s : Session) :
  cached fn (cache (store fn df s)) = Some df.
Proof. simpl. rewrite String.eqb_refl. reflexivity. Qed.

(** A call that returned leaves an entry that answers every later call,
    whatever the body would do by then. *)
Lemma cache_data_hit (fn : string) (body body' : script DataFrame)
  (w w' : World) (s s1 : Session) (df : DataFrame) :
  cache_data fn body w s = (Returned df, s1) ->
  cache_data fn body' w' s1 = (Returned df, s1).
Proof.
  unfold cache_data at 1.
  destruct (cached fn (cache s)) as [hit|] eqn:C.
  - intros H. inversion H. subst. unfold cache_data. rewrite C. reflexivity.
  - destruct (body w s) as [[got|] s'] eqn:B; intros H; inversion H.
    subst. unfold cache_data. rewrite cached_store. reflexivity.
Qed.

Lemma load_cache_data (t : table) :
  exists body, load t = cache_data (loader_name t) body.
Proof. destruct t; eexists; reflexivity. Qed.

(** A secondary loader whose fetch fails: one request, an empty table stored
    and returned, nothing on the page. *)
Lemma secondary_failure_run (t : table) (w : World) (s : Session) (e : string) :
  secondary t = true ->
  configured w = true ->
  cached (loader_name t) (cache s) = None ->
  execute w (table_name t) = Fails e ->
  load t w s =
    (Returned DataFrame_empty,
     store (loader_name t) DataFrame_empty (request (table_name t) s)).
Proof.
  intros Hs Hc Hm He. unfold configured in Hc.
  apply negb_true_iff in Hc.
  destruct t; try discriminate Hs; simpl in *;
    unfold load_members, load_companies, load_gbms, load_attendance,
      load_assignments, cache_data;
    rewrite Hm, Hc, He; reflexivity.
Qed.

(** ** Loaders: failure policy and memoization *)

(** C1, as the specification has it, fails: with the backend down the
    projects loader does not stop the run.  It returns, and the five other
    loaders are called after it. *)
Lemma fetch_failure_not_fatal :
  ~ fetch_failure_is_fatal backend_down fresh.
Proof.
  intros H. specialize (H "connection refused" eq_refl).
  vm_compute in H. discriminate H.
Qed.

(** With the backend down the six loaders are all called, each sends its
    one request, and the only trace on the page is the error of the first. *)
Example run_goes_on_with_backend_down :
  exists t s,
    load_tables backend_down fresh = (Returned t, s)
    /\ empty (projects_df t) = true
    /\ requests s =
         ["project"; "member"; "company"; "gbm"; "attendance"; "assignment"]
    /\ page s = [Error "Error loading project data: connection refused"].
Proof. do 2 eexists. repeat split. Qed.

(** Only a missing credential stops the run, before any request. *)
Lemma load_projects_unconfigured (w : World) (s : Session) :
  configured w = false ->
  cached "load_projects" (cache s) = None ->
  fst (load_projects w s) = Stopped
  /\ requests (snd (load_projects w s)) = requests s.
Proof.
  intros Hc Hm. unfold configured in Hc. apply negb_false_iff in Hc.
  unfold load_projects, cache_data. rewrite Hm, Hc. split; reflexivity.
Qed.

(** C1, amended: when the fetch of the project table fails, the projects
    loader shows the error on the page and returns an empty table, which it
    stores, so the run goes on; a secondary loader whose fetch fails returns
    an empty table too, and shows nothing. *)
Theorem load_projects_fetch_failure (w : World) (s : Session) (e : string) :
  configured w = true ->
  cached "load_projects" (cache s) = None ->
  execute w "project" = Fails e ->
  load_projects w s =
    (Returned DataFrame_empty,
     store "load_projects" DataFrame_empty
       (st_error ("Error loading project data: " ++ e)
          (request "project" s)))
  /\ page (snd (load_projects w s)) =
       (page s ++ [Error ("Error loading project data: " ++ e)])%list
  /\ forall (t : table) (s0 : Session) (e0 : string),
       secondary t = true ->
       cached (loader_name t) (cache s0) = None ->
       execute w (table_name t) = Fails e0 ->
       fst (load t w s0) = Returned DataFrame_empty
       /\ page (snd (load t w s0)) = page s0.
Proof.
  intros Hc Hm He.
  assert (Hrun : load_projects w s =
            (Returned DataFrame_empty,
             store "load_projects" DataFrame_empty
               (st_error ("Error loading project data: " ++ e)
                  (request "project" s)))).
  { unfold configured in Hc. apply negb_true_iff in Hc.
    unfold load_projects, cache_data. rewrite Hm, Hc, He. reflexivity. }
  split; [exact Hrun|]. split.
  - rewrite Hrun. reflexivity.
  - intros t s0 e0 Ht Hm0 He0.
    rewrite (secondary_failure_run t w s0 e0 Ht Hc Hm0 He0).
    split; reflexivity.
Qed.

Lemma load_projects_fetch_failure_witness :
  configured backend_down = true
  /\ cached "load_projects" (cache fresh) = None
  /\ execute backend_down "project" = Fails "connection refused"
  /\ page (snd (load_projects backend_down fresh)) =
       [Error "Error loading project data: connection refused"].
Proof.
  split; [reflexivity|]. split; [reflexivity|]. split; [reflexivity|].
  exact (proj1 (proj2 (load_projects_fetch_failure backend_down fresh
                         "connection refused" eq_refl eq_refl eq_refl))).
Defined.

(** C4: for each of the six tables, once a call of the loader has returned,
    a second call returns the same table and sends nothing to the backend,
    whatever the environment and the backend are by then: the entry is
    keyed by the function alone. *)
Theorem load_twice (t : table) (w w' : World) (s s1 : Session)
  (df : DataFrame) :
  load t w s = (Returned df, s1) ->
  fst (load t w' s1) = Returned df
  /\ requests (snd (load t w' s1)) = requests s1.
Proof.
  intros H. destruct (load_cache_data t) as [body Hb].
  rewrite Hb in *.
  rewrite (cache_data_hit _ body body w w' s s1 df H).
  split; reflexivity.
Qed.

Lemma load_twice_witness :
  load member backend_up fresh =
    (Returned (from_records [[("id", Int 1); ("name", Str "member")]]),
     store "load_members"
       (from_records [[("id", Int 1); ("name", Str "member")]])
       (request "member" fresh))
  /\ fst (load member backend_down
            (store "load_members"
               (from_records [[("id", Int 1); ("name", Str "member")]])
               (request "member" fresh)))
     = Returned (from_records [[("id", Int 1); ("name", Str "member")]]).
Proof.
  split; [reflexivity|].
  apply (load_twice member backend_up backend_down fresh). reflexivity.
Defined.

(** C5: a secondary loader whose fetch raises returns an empty table; the
    page is left as it was, and the backend has been asked once. *)
Theorem secondary_loader_fetch_failure (t : table) (w : World) (s : Session)
  (e : string) :
  secondary t = true ->
  configured w = true ->
  cached (loader_name t) (cache s) = None ->
  execute w (table_name t) = Fails e ->
  fst (load t w s) = Returned DataFrame_empty
  /\ page (snd (load t w s)) = page s
  /\ requests (snd (load t w s)) = (requests s ++ [table_name t])%list.
Proof.
  intros Ht Hc Hm He.
  rewrite (secondary_failure_run t w s e Ht Hc Hm He).
  repeat split; reflexivity.
Qed.

Lemma secondary_loader_fetch_failure_witness :
  secondary attendance = true
  /\ configured backend_down = true
  /\ cached (loader_name attendance) (cache fresh) = None
  /\ execute backend_down (table_name attendance) = Fails "connection refused"
  /\ fst (load attendance backend_down fresh) = Returned DataFrame_empty
  /\ page (snd (load attendance backend_down fresh)) = []
  /\ requests (snd (load attendance backend_down fresh)) = ["attendance"].
Proof.
  split; [reflexivity|]. split; [reflexivity|]. split; [reflexivity|].
  split; [reflexivity|].
  exact (secondary_loader_fetch_failure attendance backend_down fresh
           "connection refused" eq_refl eq_refl eq_refl eq_refl).
Defined.

(** ** The Projects tab on an empty projects table *)

(** C2, as the specification has it, fails: on an empty projects table the
    first card shows the number 0, not the sentinel. *)
Lemma empty_projects_not_all_NA :
  ~ all_NA (projects_tab sample_tables []).
Proof.
  intros [l [H F]]. vm_compute in H. inversion H; subst l; clear H.
  inversion F as [|c l' [label Hc] _]. discriminate Hc.
Qed.

(** C2, amended: when the projects table is empty, whatever the selection
    and the other tables, the four cards of the Projects tab are rendered
    and none raises: Active Projects shows 0, and Avg Team Size, Projects
    per Company and Donated Projects show "N/A". *)
Theorem empty_projects_cards (t : Tables) (selected_quarters : list cell) :
  empty (projects_df t) = true ->
  projects_tab t selected_quarters =
    Ok [ Metric "Active Projects" (VInt 0);
         Metric "Avg Team Size" NA;
         Metric "Projects per Company" NA;
         Metric "Donated Projects" NA ].
Proof.
  intros H. unfold projects_tab, filtered_projects. rewrite H. simpl.
  unfold tab1_kpis, active_projects_kpi, avg_team_size_kpi,
    projects_per_company_kpi, donated_projects_kpi.
  rewrite H. simpl. rewrite andb_false_r. reflexivity.
Qed.

Lemma empty_projects_cards_witness :
  empty (projects_df sample_tables) = true
  /\ projects_tab sample_tables [Int 1] =
       Ok [ Metric "Active Projects" (VInt 0);
            Metric "Avg Team Size" NA;
            Metric "Projects per Company" NA;
            Metric "Donated Projects" NA ].
Proof.
  split; [reflexivity|].
  exact (empty_projects_cards sample_tables [Int 1] eq_refl).
Defined.

(** ** The filter step *)

(** C3: on a non-empty projects table, an empty selection or a missing
    [quarter_id] column leaves the table as it is; and without the column
    the first filter column offers no option, renders no widget, and the
    selection is empty. *)
Theorem filter_keeps_table (sorted : list cell -> result (list cell))
  (projects : DataFrame) (selected_quarters : list cell)
  (picked : option (list cell)) :
  empty projects = false ->
  selected_quarters = [] \/ has_column "quarter_id" projects = false ->
  filtered_projects projects selected_quarters = Ok projects
  /\ (has_column "quarter_id" projects = false ->
      filter_col1 sorted projects picked = Ok ([], [])
      /\ exists block,
           filter_col1 sorted projects picked = Ok (block, [])
           /\ offered block = []).
Proof.
  intros Hne Hsel. split.
  - unfold filtered_projects. destruct Hsel as [Hs | Hq].
    + subst selected_quarters.
      destruct (negb (empty projects) && has_column "quarter_id" projects);
        reflexivity.
    + rewrite Hq, andb_false_r. reflexivity.
  - intros Hq.
    assert (Hrun : filter_col1 sorted projects picked = Ok ([], [])).
    { unfold filter_col1. rewrite Hq, andb_false_r. reflexivity. }
    split; [exact Hrun|].
    exists []. split; [exact Hrun | reflexivity].
Qed.

Lemma filter_keeps_table_witness :
  empty projects_unquartered = false
  /\ has_column "quarter_id" projects_unquartered = false
  /\ filtered_projects projects_unquartered [Int 7] = Ok projects_unquartered.
Proof.
  split; [reflexivity|]. split; [reflexivity|].
  exact (proj1 (filter_keeps_table (fun l => Ok l) projects_unquartered
                  [Int 7] None eq_refl (or_intror eq_refl))).
Defined.

(** In the run itself: a user who clears the widget sees every project, as
    does one whose projects table has no quarter column. *)
Lemma filter_section_unfiltered (sorted : list cell -> result (list cell))
  (projects : DataFrame) (picked : option (list cell))
  (block : list element) (shown : DataFrame) :
  picked = Some [] \/ has_column "quarter_id" projects = false ->
  filter_section sorted projects picked = Ok (block, shown) ->
  shown = projects.
Proof.
  unfold filter_section, filter_col1, filtered_projects.
  intros [Hp | Hq].
  - subst picked.
    destruct (negb (empty projects) && has_column "quarter_id" projects).
    + destruct (quarter_choices sorted projects); simpl; intros H;
        inversion H; reflexivity.
    + simpl. intros H. inversion H. reflexivity.
  - rewrite Hq, andb_false_r. simpl. intros H. inversion H. reflexivity.
Qed.

(** ** Avg Team Size and the quarter selection *)

(** C10: two runs over the same tables with different quarter selections,
    both leaving a non-empty filtered table with a [project_manager]
    column, give the same Avg Team Size card: the one computed from the
    whole assignments table grouped by [project_id]. *)
Theorem avg_team_size_ignores_selection (projects assignments : DataFrame)
  (selected selected' : list cell) (shown shown' : DataFrame) :
  filtered_projects projects selected = Ok shown ->
  filtered_projects projects selected' = Ok shown' ->
  empty shown = false -> has_column "project_manager" shown = true ->
  empty shown' = false -> has_column "project_manager" shown' = true ->
  avg_team_size_kpi shown assignments = avg_team_size_kpi shown' assignments
  /\ avg_team_size_kpi shown assignments =
       (size <- avg_team_size assignments ;;
        Ok (Metric "Avg Team Size" (VText (format_1f size)))).
Proof.
  intros _ _ He Hc He' Hc'. unfold avg_team_size_kpi.
  rewrite He, Hc, He', Hc'. split; reflexivity.
Qed.

Lemma avg_team_size_ignores_selection_witness :
  filtered_projects projects3 [Int 1] =
    Ok (getitem_mask projects3 [true; false; false])
  /\ filtered_projects projects3 [Int 2] =
       Ok (getitem_mask projects3 [false; true; true])
  /\ avg_team_size_kpi (getitem_mask projects3 [true; false; false])
       assignments4 =
     avg_team_size_kpi (getitem_mask projects3 [false; true; true])
       assignments4.
Proof.
  split; [reflexivity|]. split; [reflexivity|].
  exact (proj1 (avg_team_size_ignores_selection projects3 assignments4
                  [Int 1] [Int 2] _ _ eq_refl eq_refl
                  eq_refl eq_refl eq_refl eq_refl)).
Defined.

(** ** Worked examples of the specification *)

(** C6: a members table whose [role] column reads Associate, associate,
    Analyst, Partner shows 3 on the Associates & Analysts card: the two
    spellings of associate both match, and so does the analyst. *)
Theorem associates_analysts_is_3 (members : DataFrame) :
  column members "role" =
    Ok [Str "Associate"; Str "associate"; Str "Analyst"; Str "Partner"] ->
  associates_analysts_kpi members =
    Ok (Metric "Associates & Analysts" (VInt 3)).
Proof.
  intros H. unfold associates_analysts_kpi.
  rewrite (column_cons_not_empty _ _ _ _ H), H.
  rows_of H. rewrite Hc. simpl negb. cbv iota beta.
  destruct members as [cols rws]. simpl in Hm.
  destruct rws as [|r1 [|r2 [|r3 [|r4 [|r5 rws]]]]]; try discriminate Hm.
  vm_compute. reflexivity.
Qed.

Lemma associates_analysts_is_3_witness :
  column members4 "role" =
    Ok [Str "Associate"; Str "associate"; Str "Analyst"; Str "Partner"]
  /\ associates_analysts_kpi members4 =
       Ok (Metric "Associates & Analysts" (VInt 3)).
Proof.
  split; [reflexivity|].
  exact (associates_analysts_is_3 members4 eq_refl).
Defined.

(** C7: with attendance rows (1, True), (1, False), (2, True) and a
    non-empty members table, the Avg Attendance/GBM card shows 1.0: the
    sums per meeting are 1 and 1. *)
Theorem avg_attendance_is_1 (attendance members : DataFrame) :
  column attendance "gbm_id" = Ok [Int 1; Int 1; Int 2] ->
  column attendance "status" = Ok [Bool true; Bool false; Bool true] ->
  empty members = false ->
  groupby_sum attendance "gbm_id" "status" = Ok [(KNum 1, 1); (KNum 2, 1)]
  /\ avg_attendance_kpi attendance members =
       Ok (Metric "Avg Attendance/GBM" (VText "1.0")).
Proof.
  intros Hg Hs Hm.
  assert (Hsum : groupby_sum attendance "gbm_id" "status" =
                   Ok [(KNum 1, 1); (KNum 2, 1)]).
  { unfold groupby_sum. rewrite Hg, Hs. reflexivity. }
  split; [exact Hsum|].
  unfold avg_attendance_kpi.
  rewrite (column_cons_not_empty _ _ _ _ Hg), Hm, Hsum.
  rows_of Hg. rows_of Hs. rewrite Hc, Hc0. reflexivity.
Qed.

Lemma avg_attendance_is_1_witness :
  column attendance3 "gbm_id" = Ok [Int 1; Int 1; Int 2]
  /\ column attendance3 "status" = Ok [Bool true; Bool false; Bool true]
  /\ empty members4 = false
  /\ avg_attendance_kpi attendance3 members4 =
       Ok (Metric "Avg Attendance/GBM" (VText "1.0")).
Proof.
  split; [reflexivity|]. split; [reflexivity|]. split; [reflexivity|].
  exact (proj2 (avg_attendance_is_1 attendance3 members4
                  eq_refl eq_refl eq_refl)).
Defined.

(** C8: a filtered projects table whose [donated] column reads True, False,
    True shows 66.7% on the Donated Projects card: two thirds, times a
    hundred, to one decimal. *)
Theorem donated_is_66_7 (shown : DataFrame) :
  column shown "donated" = Ok [Bool true; Bool false; Bool true] ->
  donated_projects_kpi shown =
    Ok (Metric "Donated Projects" (VText "66.7%")).
Proof.
  intros H. unfold donated_projects_kpi.
  rewrite (column_cons_not_empty _ _ _ _ H), H.
  rows_of H. rewrite Hc. simpl negb. cbv iota beta.
  unfold len. rewrite <- (length_map (field "donated")), Hm.
  vm_compute. reflexivity.
Qed.

Lemma donated_is_66_7_witness :
  column projects3 "donated" = Ok [Bool true; Bool false; Bool true]
  /\ donated_projects_kpi projects3 =
       Ok (Metric "Donated Projects" (VText "66.7%")).
Proof.
  split; [reflexivity|].
  exact (donated_is_66_7 projects3 eq_refl).
Defined.

(** ** The GBMs tab and the members table *)

(** C9: with a non-empty attendance table and an empty members table, the
    GBM Attendance and Avg Attendance/GBM cards both show "N/A"; yet with
    any non-empty members table the two cards do not depend on it. *)
Theorem attendance_cards_need_members (attendance members : DataFrame) :
  empty attendance = false ->
  empty members = true ->
  gbm_attendance_kpi attendance members = Ok (Metric "GBM Attendance" NA)
  /\ avg_attendance_kpi attendance members =
       Ok (Metric "Avg Attendance/GBM" NA)
  /\ forall m m' : DataFrame,
       empty m = false -> empty m' = false ->
       gbm_attendance_kpi attendance m = gbm_attendance_kpi attendance m'
       /\ avg_attendance_kpi attendance m = avg_attendance_kpi attendance m'.
Proof.
  intros Ha Hm. unfold gbm_attendance_kpi, avg_attendance_kpi.
  rewrite Ha, Hm. simpl.
  split; [reflexivity|]. split; [reflexivity|].
  intros m m' Hne Hne'. rewrite Hne, Hne'. split; reflexivity.
Qed.

Lemma attendance_cards_need_members_witness :
  empty attendance3 = false
  /\ empty DataFrame_empty = true
  /\ gbm_attendance_kpi attendance3 DataFrame_empty =
       Ok (Metric "GBM Attendance" NA)
  /\ avg_attendance_kpi attendance3 DataFrame_empty =
       Ok (Metric "Avg Attendance/GBM" NA).
Proof.
  split; [reflexivity|]. split; [reflexivity|].
  pose proof (attendance_cards_need_members attendance3 DataFrame_empty
                eq_refl eq_refl) as H.
  exact (conj (proj1 H) (proj1 (proj2 H))).
Defined.


(** ** More on the loaders *)

Lemma load_success_run (t : table) (w : World) (s : Session)
  (data : list record) :
  configured w = true ->
  cached (loader_name t) (cache s) = None ->
  execute w (table_name t) = Rows data ->
  load t w s =
    (Returned (from_records data),
     store (loader_name t) (from_records data) (request (table_name t) s)).
Proof.
  intros Hc Hm He. unfold configured in Hc. apply negb_true_iff in Hc.
  destruct t; simpl in *;
    unfold load_projects, load_members, load_companies, load_gbms,
      load_attendance, load_assignments, cache_data;
    rewrite Hm, Hc, He; reflexivity.
Qed.

Lemma projects_failure_run (w : World) (s : Session) (e : string) :
  configured w = true ->
  cached "load_projects" (cache s) = None ->
  execute w "project" = Fails e ->
  load project w s =
    (Returned DataFrame_empty,
     store "load_projects" DataFrame_empty
       (st_error ("Error loading project data: " ++ e)
          (request "project" s))).
Proof.
  intros Hc Hm He. unfold configured in Hc. apply negb_true_iff in Hc.
  simpl. unfold load_projects, cache_data. rewrite Hm, Hc, He. reflexivity.
Qed.

Lemma load_hit (t : table) (w : World) (s : Session) (df : DataFrame) :
  cached (loader_name t) (cache s) = Some df ->
  load t w s = (Returned df, s).
Proof.
  intros H. destruct (load_cache_data t) as [body Hb]. rewrite Hb.
  unfold cache_data. rewrite H. reflexivity.
Qed.

(** X1: A successful fetch, for each of the six tables: the loader returns the
    table built from the rows of the response, has asked the backend once,
    has put nothing on the page, and holds the table for the next call. *)
Theorem load_fetches_once (t : table) (w : World) (s : Session)
  (data : list record) :
  configured w = true ->
  cached (loader_name t) (cache s) = None ->
  execute w (table_name t) = Rows data ->
  fst (load t w s) = Returned (from_records data)
  /\ requests (snd (load t w s)) = (requests s ++ [table_name t])%list
  /\ page (snd (load t w s)) = page s
  /\ cached (loader_name t) (cache (snd (load t w s)))
       = Some (from_records data).
Proof.
  intros Hc Hm He. rewrite (load_success_run t w s data Hc Hm He).
  simpl. rewrite String.eqb_refl. repeat split.
Qed.

Lemma load_fetches_once_witness :
  configured backend_up = true
  /\ cached (loader_name gbm) (cache fresh) = None
  /\ execute backend_up (table_name gbm)
       = Rows [[("id", Int 1); ("name", Str "gbm")]]
  /\ fst (load gbm backend_up fresh)
       = Returned (from_records [[("id", Int 1); ("name", Str "gbm")]]).
Proof.
  split; [reflexivity|]. split; [reflexivity|]. split; [reflexivity|].
  exact (proj1 (load_fetches_once gbm backend_up fresh _
                  eq_refl eq_refl eq_refl)).
Defined.

(** X2: A failed fetch sticks: the empty table that the loader returned is
    what every later call returns, without a request, also once the backend
    answers again.  This holds for the projects loader as for the others. *)
Theorem failed_fetch_sticks (t : table) (w w' : World) (s : Session)
  (e : string) :
  configured w = true ->
  cached (loader_name t) (cache s) = None ->
  execute w (table_name t) = Fails e ->
  fst (load t w' (snd (load t w s))) = Returned DataFrame_empty
  /\ requests (snd (load t w' (snd (load t w s))))
       = (requests s ++ [table_name t])%list.
Proof.
  intros Hc Hm He.
  assert (H : exists s1, load t w s = (Returned DataFrame_empty, s1)
                         /\ requests s1 = (requests s ++ [table_name t])%list).
  { destruct t.
    - eexists. split;
        [exact (projects_failure_run w s e Hc Hm He) | reflexivity].
    - eexists. split;
        [exact (secondary_failure_run member w s e eq_refl Hc Hm He)
        | reflexivity].
    - eexists. split;
        [exact (secondary_failure_run company w s e eq_refl Hc Hm He)
        | reflexivity].
    - eexists. split;
        [exact (secondary_failure_run gbm w s e eq_refl Hc Hm He)
        | reflexivity].
    - eexists. split;
        [exact (secondary_failure_run attendance w s e eq_refl Hc Hm He)
        | reflexivity].
    - eexists. split;
        [exact (secondary_failure_run assignment w s e eq_refl Hc Hm He)
        | reflexivity]. }
  destruct H as [s1 [Hrun Hreq]]. rewrite Hrun. simpl snd.
  destruct (load_cache_data t) as [body Hb]. rewrite Hb in *.
  rewrite (cache_data_hit _ body body w w' s s1 _ Hrun).
  split; [reflexivity | exact Hreq].
Qed.

Lemma failed_fetch_sticks_witness :
  configured backend_down = true
  /\ cached (loader_name project) (cache fresh) = None
  /\ execute backend_down (table_name project) = Fails "connection refused"
  /\ fst (load project backend_up (snd (load project backend_down fresh)))
       = Returned DataFrame_empty.
Proof.
  split; [reflexivity|]. split; [reflexivity|]. split; [reflexivity|].
  exact (proj1 (failed_fetch_sticks project backend_down backend_up fresh
                  "connection refused" eq_refl eq_refl eq_refl)).
Defined.







(** X4: Without credentials a run with no cached projects stops at the first
    loader: the page gets the configuration error, no request is sent, and
    no other loader runs, so the cache is as it was. *)
Theorem unconfigured_run_stops (w : World) (s : Session) :
  configured w = false ->
  cached "load_projects" (cache s) = None ->
  load_tables w s =
    (Stopped,
     st_error "Please set SUPABASE_URL and SUPABASE_KEY in your .env file" s).
Proof.
  intros Hc Hm. unfold configured in Hc. apply negb_false_iff in Hc.
  unfold load_tables, and_then, load_projects, cache_data.
  rewrite Hm, Hc. reflexivity.
Qed.

Lemma unconfigured_run_stops_witness :
  configured (mkWorld (fun _ => None) (execute backend_up)) = false
  /\ cached "load_projects" (cache fresh) = None
  /\ load_tables (mkWorld (fun _ => None) (execute backend_up)) fresh =
       (Stopped,
        st_error "Please set SUPABASE_URL and SUPABASE_KEY in your .env file"
          fresh).
Proof.
  split; [reflexivity|]. split; [reflexivity|].
  exact (unconfigured_run_stops (mkWorld (fun _ => None) (execute backend_up))
           fresh eq_refl eq_refl).
Defined.

(** X5: Without credentials a secondary loader returns an empty table in
    silence: no request, nothing on the page.  The empty table is stored,
    so later calls return it too, credentials or not. *)
Theorem secondary_unconfigured (t : table) (w w' : World) (s : Session) :
  secondary t = true ->
  configured w = false ->
  cached (loader_name t) (cache s) = None ->
  load t w s =
    (Returned DataFrame_empty, store (loader_name t) DataFrame_empty s)
  /\ load t w' (store (loader_name t) DataFrame_empty s) =
       (Returned DataFrame_empty, store (loader_name t) DataFrame_empty s).
Proof.
  intros Ht Hc Hm. unfold configured in Hc. apply negb_false_iff in Hc.
  assert (Hrun : load t w s =
            (Returned DataFrame_empty,
             store (loader_name t) DataFrame_empty s)).
  { destruct t; try discriminate Ht; simpl in *;
      unfold load_members, load_companies, load_gbms, load_attendance,
        load_assignments, cache_data;
      rewrite Hm, Hc; reflexivity. }
  split; [exact Hrun|].
  apply load_hit. apply cached_store.
Qed.

Lemma secondary_unconfigured_witness :
  secondary member = true
  /\ configured (mkWorld (fun _ => None) (execute backend_up)) = false
  /\ cached (loader_name member) (cache fresh) = None
  /\ load member backend_up (store "load_members" DataFrame_empty fresh) =
       (Returned DataFrame_empty, store "load_members" DataFrame_empty fresh).
Proof.
  split; [reflexivity|]. split; [reflexivity|]. split; [reflexivity|].
  exact (proj2 (secondary_unconfigured member
                  (mkWorld (fun _ => None) (execute backend_up)) backend_up
                  fresh eq_refl eq_refl eq_refl)).
Defined.

(** ** The page when the backend is down *)

Lemma cards_of_empty_tables (t : Tables) (selected_quarters : list cell) :
  empty (projects_df t) = true -> empty (members_df t) = true ->
  empty (companies_df t) = true -> empty (gbms_df t) = true ->
  empty (attendance_df t) = true ->
  members_tab t =
    Ok [ Metric "Total Members" NA; Metric "Associates & Analysts" NA;
         Metric "Active Members" NA; Metric "Active Associates" (VText "-") ]
  /\ companies_tab t selected_quarters =
       Ok [ Metric "Total Companies" NA; Metric "Avg Projects/Company" NA;
            Metric "Donated %" NA; Metric "Project Donated %" (VText "-") ]
  /\ gbms_tab t =
       Ok [ Metric "Total GBMs" NA; Metric "GBM Attendance" NA;
            Metric "Avg Attendance/GBM" NA;
            Metric "Attendance Prediction" (VText "-") ].
Proof.
  intros Hp Hm Hc Hg Ha. split; [|split].
  - unfold members_tab, tab2_kpis, total_members_kpi,
      associates_analysts_kpi, active_members_kpi.
    rewrite Hm. reflexivity.
  - unfold companies_tab, filtered_projects. rewrite Hp. simpl.
    unfold tab3_kpis, total_companies_kpi, avg_projects_company_kpi,
      donated_pct_kpi.
    rewrite Hp, Hc. reflexivity.
  - unfold gbms_tab, tab4_kpis, total_gbms_kpi, gbm_attendance_kpi,
      avg_attendance_kpi.
    rewrite Hg, Ha. reflexivity.
Qed.

(** Looks up the next loader in the cache that the last one left. *)
Ltac step :=
  cbn [cache store st_error request cached String.eqb Ascii.eqb Bool.eqb].

(** X6: With credentials set, nothing cached and a backend that fails every
    request, the run does not crash: each table is asked for once, the page
    gets the one error of the projects loader, and the cards of the
    Members, Companies and GBMs tabs all show "N/A" (or their fixed dash),
    whatever the selection. *)
Theorem backend_outage (w : World) (s : Session) (msg : table -> string)
  (selected_quarters : list cell) :
  configured w = true ->
  (forall t, cached (loader_name t) (cache s) = None) ->
  (forall t, execute w (table_name t) = Fails (msg t)) ->
  exists t s',
    load_tables w s = (Returned t, s')
    /\ requests s' =
         (requests s ++
          ["project"; "member"; "company"; "gbm"; "attendance"; "assignment"])%list
    /\ page s' =
         (page s ++ [Error ("Error loading project data: " ++ msg project)])%list
    /\ members_tab t =
         Ok [ Metric "Total Members" NA; Metric "Associates & Analysts" NA;
              Metric "Active Members" NA;
              Metric "Active Associates" (VText "-") ]
    /\ companies_tab t selected_quarters =
         Ok [ Metric "Total Companies" NA; Metric "Avg Projects/Company" NA;
              Metric "Donated %" NA; Metric "Project Donated %" (VText "-") ]
    /\ gbms_tab t =
         Ok [ Metric "Total GBMs" NA; Metric "GBM Attendance" NA;
              Metric "Avg Attendance/GBM" NA;
              Metric "Attendance Prediction" (VText "-") ].
Proof.
  intros Hc Hmiss Hfail.
  exists (mkTables DataFrame_empty DataFrame_empty DataFrame_empty
            DataFrame_empty DataFrame_empty DataFrame_empty).
  eexists. split.
  - pose proof (Hmiss project) as M1. pose proof (Hmiss member) as M2.
    pose proof (Hmiss company) as M3. pose proof (Hmiss gbm) as M4.
    pose proof (Hmiss attendance) as M5. pose proof (Hmiss assignment) as M6.
    pose proof (Hfail project) as F1. pose proof (Hfail member) as F2.
    pose proof (Hfail company) as F3. pose proof (Hfail gbm) as F4.
    pose proof (Hfail attendance) as F5. pose proof (Hfail assignment) as F6.
    simpl in M1, M2, M3, M4, M5, M6, F1, F2, F3, F4, F5, F6.
    unfold configured in Hc. apply negb_true_iff in Hc.
    unfold load_tables, and_then, load_projects, load_members,
      load_companies, load_gbms, load_attendance, load_assignments,
      cache_data.
    rewrite Hc, M1, F1. step. rewrite M2, F2. step.
    rewrite M3, F3. step. rewrite M4, F4. step.
    rewrite M5, F5. step. rewrite M6, F6. reflexivity.
  - split; [|split].
    + simpl. repeat rewrite <- app_assoc. reflexivity.
    + reflexivity.
    + apply cards_of_empty_tables; reflexivity.
Qed.

Lemma backend_outage_witness :
  configured backend_down = true
  /\ (forall t, cached (loader_name t) (cache fresh) = None)
  /\ (forall t, execute backend_down (table_name t)
                = Fails "connection refused")
  /\ exists t s',
       load_tables backend_down fresh = (Returned t, s')
       /\ page s' = [Error "Error loading project data: connection refused"].
Proof.
  split; [reflexivity|]. split; [intros t; reflexivity|].
  split; [intros t; reflexivity|].
  destruct (backend_outage backend_down fresh
              (fun _ => "connection refused") []
              eq_refl (fun t => eq_refl) (fun t => eq_refl))
    as [t [s' [Hrun [_ [Hpage _]]]]].
  exists t, s'. split; [exact Hrun | exact Hpage].
Defined.

(** ** More on the filter *)

Lemma select_map (A : Type) (f : A -> bool) (l : list A) :
  select (map f l) l = filter f l.
Proof.
  induction l as [|x l IH]; simpl; [reflexivity|].
  rewrite IH. reflexivity.
Qed.

Lemma isin_column (selected : list cell) (rws : list record) :
  isin selected (map (field "quarter_id") rws) = map (quarter_in selected) rws.
Proof. unfold isin, quarter_in. rewrite map_map. reflexivity. Qed.

Lemma filter_all (A : Type) (f : A -> bool) (l : list A) :
  (forall x, In x l -> f x = true) -> filter f l = l.
Proof.
  induction l as [|x l IH]; simpl; intros H; [reflexivity|].
  rewrite (H x (or_introl eq_refl)), IH; [reflexivity|].
  intros y Hy. apply H. right. exact Hy.
Qed.

Lemma filter_filter (A : Type) (f : A -> bool) (l : list A) :
  filter f (filter f l) = filter f l.
Proof.
  apply filter_all. intros x Hx. apply filter_In in Hx. apply Hx.
Qed.

(** The filter step under a selection, when its guard holds. *)
Lemma filtered_projects_rows (projects : DataFrame) (c : cell)
  (selected : list cell) :
  empty projects = false ->
  has_column "quarter_id" projects = true ->
  filtered_projects projects (c :: selected) =
    Ok (mkDataFrame (columns projects)
          (filter (quarter_in (c :: selected)) (rows projects))).
Proof.
  intros He Hq. unfold filtered_projects, column, getitem_mask.
  rewrite He, Hq. simpl negb. cbv iota beta. simpl bind.
  rewrite isin_column, select_map. reflexivity.
Qed.

(** X7: Under a selection that is not empty the filter keeps the columns and
    exactly the rows whose quarter is selected, in their order: it adds
    none, drops no selected one and reorders nothing. *)
Theorem filter_keeps_selected_rows (projects shown : DataFrame)
  (selected_quarters : list cell) :
  empty projects = false ->
  has_column "quarter_id" projects = true ->
  selected_quarters <> [] ->
  filtered_projects projects selected_quarters = Ok shown ->
  columns shown = columns projects
  /\ rows shown = filter (quarter_in selected_quarters) (rows projects)
  /\ len shown <= len projects.
Proof.
  intros He Hq Hs H. destruct selected_quarters as [|c sel]; [congruence|].
  rewrite (filtered_projects_rows projects c sel He Hq) in H.
  inversion H; subst shown; clear H. simpl.
  split; [reflexivity|]. split; [reflexivity|].
  unfold len. simpl. apply Nat2Z.inj_le. apply filter_length_le.
Qed.

Lemma filter_keeps_selected_rows_witness :
  empty projects3 = false
  /\ has_column "quarter_id" projects3 = true
  /\ [Int 2] <> []
  /\ rows (getitem_mask projects3 [false; true; true]) =
       filter (quarter_in [Int 2]) (rows projects3).
Proof.
  split; [reflexivity|]. split; [reflexivity|].
  assert (Hs : [Int 2] <> []) by discriminate.
  split; [exact Hs|].
  exact (proj1 (proj2 (filter_keeps_selected_rows projects3 _ [Int 2]
                         eq_refl eq_refl Hs eq_refl))).
Defined.

(** X8: Filtering twice is filtering once: the table that the filter step
    returned passes through the filter step unchanged under the same
    selection, be it empty or not. *)
Theorem filter_idempotent (projects shown : DataFrame)
  (selected_quarters : list cell) :
  filtered_projects projects selected_quarters = Ok shown ->
  filtered_projects shown selected_quarters = Ok shown.
Proof.
  intros H.
  destruct (negb (empty projects) && has_column "quarter_id" projects) eqn:G.
  - destruct selected_quarters as [|c sel].
    + unfold filtered_projects in *. rewrite G in H. inversion H; subst.
      rewrite G. reflexivity.
    + apply andb_prop in G. destruct G as [He Hq].
      apply negb_true_iff in He.
      rewrite (filtered_projects_rows projects c sel He Hq) in H.
      inversion H; subst shown; clear H.
      set (kept := mkDataFrame (columns projects)
                     (filter (quarter_in (c :: sel)) (rows projects))).
      destruct (empty kept) eqn:Hk.
      * unfold filtered_projects. rewrite Hk. reflexivity.
      * rewrite (filtered_projects_rows kept c sel Hk Hq).
        unfold kept. simpl. rewrite filter_filter. reflexivity.
  - unfold filtered_projects in *. rewrite G in H. inversion H; subst.
    rewrite G. reflexivity.
Qed.

Lemma filter_idempotent_witness :
  filtered_projects projects3 [Int 2] =
    Ok (getitem_mask projects3 [false; true; true])
  /\ filtered_projects (getitem_mask projects3 [false; true; true]) [Int 2] =
       Ok (getitem_mask projects3 [false; true; true]).
Proof.
  split; [reflexivity|].
  exact (filter_idempotent projects3 _ [Int 2] eq_refl).
Defined.







(** ** More on the cards *)

Lemma not_empty_len (df : DataFrame) :
  empty df = false -> (0 <? len df) = true.
Proof.
  unfold empty, len. intros H. apply orb_false_elim in H.
  destruct H as [_ H]. destruct (rows df); [discriminate H | reflexivity].
Qed.

(** X10: The Companies tab repeats two cards of the Projects tab under other
    labels: Avg Projects/Company is Projects per Company and Donated % is
    Donated Projects, value for value and exception for exception, although
    the two pairs are written differently. *)
Theorem companies_cards_repeat (shown companies : DataFrame) :
  avg_projects_company_kpi shown companies =
    relabel "Avg Projects/Company" (projects_per_company_kpi shown companies)
  /\ donated_pct_kpi shown =
       relabel "Donated %" (donated_projects_kpi shown).
Proof.
  split.
  - unfold avg_projects_company_kpi, projects_per_company_kpi.
    destruct (empty shown), (empty companies); reflexivity.
  - unfold donated_pct_kpi, donated_projects_kpi.
    destruct (empty shown) eqn:He; [reflexivity|].
    destruct (has_column "donated" shown) eqn:Hd; [|reflexivity].
    simpl andb. cbv iota. rewrite (not_empty_len shown He).
    destruct (column shown "donated") as [col|e]; [|reflexivity].
    simpl bind. destruct (Pd.sum col) as [z|e]; reflexivity.
Qed.

(** X11: The second card of the Projects tab reads [project_id] from the
    assignments table without checking for it: when the card is due and the
    assignments table has rows but no such column, the card raises
    [KeyError], and the run ends there, before the two cards after it. *)
Theorem team_size_needs_project_id (shown assignments companies : DataFrame) :
  empty shown = false ->
  has_column "project_manager" shown = true ->
  empty assignments = false ->
  has_column "project_id" assignments = false ->
  avg_team_size_kpi shown assignments = Raise (KeyError "project_id")
  /\ tab1_kpis shown assignments companies = Raise (KeyError "project_id").
Proof.
  intros He Hm Ha Hp.
  assert (H : avg_team_size_kpi shown assignments
              = Raise (KeyError "project_id")).
  { unfold avg_team_size_kpi, avg_team_size, groupby_size, column.
    rewrite He, Hm, Ha, Hp. reflexivity. }
  split; [exact H|].
  unfold tab1_kpis. rewrite H. reflexivity.
Qed.

Lemma team_size_needs_project_id_witness :
  empty projects3 = false
  /\ has_column "project_manager" projects3 = true
  /\ empty members4 = false
  /\ has_column "project_id" members4 = false
  /\ tab1_kpis projects3 members4 DataFrame_empty
       = Raise (KeyError "project_id").
Proof.
  split; [reflexivity|]. split; [reflexivity|]. split; [reflexivity|].
  split; [reflexivity|].
  exact (proj2 (team_size_needs_project_id projects3 members4 DataFrame_empty
                  eq_refl eq_refl eq_refl eq_refl)).
Defined.

Lemma sum_raises_TypeError (col : list cell) (e : exn) :
  Pd.sum col = Raise e -> e = TypeError.
Proof.
  induction col as [|v col IH]; simpl; [discriminate|].
  destruct (Pd.sum col) as [z|e'].
  - destruct v; simpl; intros H; inversion H; reflexivity.
  - simpl. intros H. inversion H; subst. apply IH. reflexivity.
Qed.

Lemma sum_text (col : list cell) :
  existsb is_str col = true -> Pd.sum col = Raise TypeError.
Proof.
  induction col as [|v col IH]; simpl; [discriminate|].
  intros H. destruct (Pd.sum col) as [z|e] eqn:S.
  - destruct v; simpl in H |- *; try reflexivity; discriminate (IH H).
  - simpl. rewrite (sum_raises_TypeError col e S). reflexivity.
Qed.

Lemma sum_no_text (col : list cell) :
  existsb is_str col = false -> exists z, Pd.sum col = Ok z.
Proof.
  induction col as [|v col IH]; simpl; [eexists; reflexivity|].
  intros H. apply orb_false_elim in H. destruct H as [Hv H].
  destruct (IH H) as [z Hz]. rewrite Hz.
  destruct v; simpl; try (eexists; reflexivity). discriminate Hv.
Qed.

(** X12: The Donated Projects card raises exactly when it is due and the
    [donated] column holds text, and then with [TypeError]; in every other
    case it is rendered. *)
Theorem donated_card_raises_on_text (shown : DataFrame) :
  (empty shown = false
   /\ has_column "donated" shown = true
   /\ existsb is_str (map (field "donated") (rows shown)) = true ->
   donated_projects_kpi shown = Raise TypeError)
  /\ (existsb is_str (map (field "donated") (rows shown)) = false ->
      exists v, donated_projects_kpi shown = Ok (Metric "Donated Projects" v))
  /\ (empty shown = true \/ has_column "donated" shown = false ->
      donated_projects_kpi shown = Ok (Metric "Donated Projects" NA)).
Proof.
  unfold donated_projects_kpi, column. split; [|split].
  - intros [He [Hd Ht]]. rewrite He, Hd. simpl.
    rewrite (sum_text _ Ht). reflexivity.
  - intros Ht.
    destruct (negb (empty shown) && has_column "donated" shown) eqn:G;
      [|eexists; reflexivity].
    apply andb_prop in G. destruct G as [_ Hd]. rewrite Hd. simpl.
    destruct (sum_no_text _ Ht) as [z Hz]. rewrite Hz. simpl.
    eexists; reflexivity.
  - intros [He | Hd].
    + rewrite He. reflexivity.
    + rewrite Hd, andb_false_r. reflexivity.
Qed.

Lemma donated_card_raises_on_text_witness :
  existsb is_str
    (map (field "donated")
       (rows (from_records
                [[("donated", Str "yes")]; [("donated", Bool true)]]))) = true
  /\ donated_projects_kpi
       (from_records [[("donated", Str "yes")]; [("donated", Bool true)]])
     = Raise TypeError.
Proof.
  split; [reflexivity|].
  exact (proj1 (donated_card_raises_on_text
                  (from_records
                     [[("donated", Str "yes")]; [("donated", Bool true)]]))
           (conj eq_refl (conj eq_refl eq_refl))).
Defined.

Lemma count_cons (A : Type) (f : A -> bool) (x : A) (l : list A) :
  count f (x :: l) = (if f x then 1 else 0) + count f l.
Proof.
  unfold count. cbn [filter]. destruct (f x); [|reflexivity].
  cbn [List.length]. rewrite Nat2Z.inj_succ. lia.
Qed.

Lemma count_nonneg (A : Type) (f : A -> bool) (l : list A) : 0 <= count f l.
Proof. unfold count. lia. Qed.

Lemma count_or_and (A : Type) (f g : A -> bool) (l : list A) :
  count f l + count g l =
  count (fun x => f x || g x) l + count (fun x => f x && g x) l.
Proof.
  induction l as [|x l IH]; [reflexivity|].
  rewrite !count_cons. destruct (f x), (g x); cbn [orb andb]; lia.
Qed.

Lemma len_mask (df : DataFrame) (f : record -> bool) :
  len (getitem_mask df (map f (rows df))) = count f (rows df).
Proof. unfold len, getitem_mask, count. simpl. rewrite select_map. reflexivity. Qed.

Lemma str_contains_rows (pat : string) (rws : list record) :
  str_accessor_ok (map (field "role") rws) = true ->
  str_contains pat (map (field "role") rws) = Ok (map (role_matches pat) rws).
Proof.
  intros H. unfold str_contains. rewrite H, map_map. reflexivity.
Qed.

(** X13: The Associates & Analysts card adds two counts, so a member whose role
    matches both words is counted twice: the card shows the number of
    members matching either word plus the number matching both. *)
Theorem associates_analysts_counts_twice (members : DataFrame) :
  empty members = false ->
  has_column "role" members = true ->
  str_accessor_ok (map (field "role") (rows members)) = true ->
  associates_analysts_kpi members =
    Ok (Metric "Associates & Analysts"
          (VInt (count (fun r => role_matches "Associate" r
                                 || role_matches "Analyst" r) (rows members)
                 + count (fun r => role_matches "Associate" r
                                   && role_matches "Analyst" r)
                     (rows members)))).
Proof.
  intros He Hr Hs. unfold associates_analysts_kpi, column.
  rewrite He, Hr. simpl andb. cbv iota. simpl bind.
  rewrite !(str_contains_rows _ _ Hs). simpl bind.
  rewrite !len_mask, count_or_and. reflexivity.
Qed.

Lemma associates_analysts_counts_twice_witness :
  str_accessor_ok
    (map (field "role")
       (rows (from_records
                [[("role", Str "Associate Analyst")]; [("role", Str "PM")]])))
  = true
  /\ associates_analysts_kpi
       (from_records
          [[("role", Str "Associate Analyst")]; [("role", Str "PM")]])
     = Ok (Metric "Associates & Analysts" (VInt 2)).
Proof.
  split; [reflexivity|].
  exact (associates_analysts_counts_twice
           (from_records
              [[("role", Str "Associate Analyst")]; [("role", Str "PM")]])
           eq_refl eq_refl eq_refl).
Defined.

Lemma sum_flags (col : list cell) :
  forallb is_bool col = true ->
  Pd.sum col = Ok (count (fun v => cell_eqb v (Bool true)) col).
Proof.
  induction col as [|v col IH]; [reflexivity|].
  simpl forallb. intros H. apply andb_prop in H. destruct H as [Hv H].
  rewrite count_cons. simpl Pd.sum. rewrite (IH H). simpl bind.
  destruct v as [|[|]|n|s]; try discriminate Hv; reflexivity.
Qed.

Lemma count_map (A B : Type) (g : A -> B) (f : B -> bool) (l : list A) :
  count f (map g l) = count (fun x => f (g x)) l.
Proof.
  induction l as [|x l IH]; [reflexivity|].
  simpl map. rewrite !count_cons, IH. reflexivity.
Qed.

(** X14: The Active Members card has two ways to count, one for a column of
    flags and one for any other column; both give the number of members
    whose status equals [True] (as 1 does), and neither raises. *)
Theorem active_members_counts_true (members : DataFrame) :
  empty members = false ->
  has_column "status" members = true ->
  active_members_kpi members =
    Ok (Metric "Active Members"
          (VInt (count (fun r => cell_eqb (field "status" r) (Bool true))
                   (rows members))))
  /\ 0 <= count (fun r => cell_eqb (field "status" r) (Bool true))
            (rows members) <= len members.
Proof.
  intros He Hs. split.
  - unfold active_members_kpi, column. rewrite He, Hs.
    simpl andb. cbv iota. simpl bind.
    destruct (dtype_is_bool (map (field "status") (rows members))) eqn:D.
    + unfold dtype_is_bool in D. rewrite (sum_flags _ D), count_map.
      reflexivity.
    + unfold eq_scalar. rewrite map_map, len_mask. reflexivity.
  - split; [apply count_nonneg|].
    unfold count, len. apply Nat2Z.inj_le. apply filter_length_le.
Qed.

Lemma active_members_counts_true_witness :
  has_column "status"
    (from_records
       [[("status", Bool true)]; [("status", Int 1)]; [("status", Null)]])
  = true
  /\ active_members_kpi
       (from_records
          [[("status", Bool true)]; [("status", Int 1)]; [("status", Null)]])
     = Ok (Metric "Active Members" (VInt 2)).
Proof.
  split; [reflexivity|].
  exact (proj1 (active_members_counts_true
                  (from_records
                     [[("status", Bool true)]; [("status", Int 1)];
                      [("status", Null)]])
                  eq_refl eq_refl)).
Defined.

(** ** Groups *)

Lemma key_eqb_eq (a b : key) : key_eqb a b = true <-> a = b.
Proof.
  destruct a as [n|s], b as [m|t]; simpl; split; intros H;
    try discriminate H.
  - apply Z.eqb_eq in H. subst. reflexivity.
  - inversion H. apply Z.eqb_refl.
  - apply String.eqb_eq in H. subst. reflexivity.
  - inversion H. apply String.eqb_refl.
Qed.

Lemma existsb_key_In (k : key) (l : list key) :
  existsb (key_eqb k) l = true <-> In k l.
Proof.
  rewrite existsb_exists. split.
  - intros [x [Hx E]]. apply key_eqb_eq in E. subst. exact Hx.
  - intros H. exists k. split; [exact H | apply key_eqb_eq; reflexivity].
Qed.

Lemma add_key_NoDup (acc : list key) (v : cell) :
  NoDup acc -> NoDup (add_key acc v).
Proof.
  intros H. unfold add_key. destruct (key_of v) as [k|]; [|exact H].
  destruct (existsb (key_eqb k) acc) eqn:E; [exact H|].
  apply NoDup_app; [exact H | constructor; [intros [] | constructor] |].
  intros x Hx [Hk | []]. subst x.
  apply existsb_key_In in Hx. rewrite Hx in E. discriminate E.
Qed.

Lemma add_key_In (acc : list key) (v : cell) (k : key) :
  In k (add_key acc v) <-> In k acc \/ key_of v = Some k.
Proof.
  unfold add_key. destruct (key_of v) as [k'|].
  - destruct (existsb (key_eqb k') acc) eqn:E.
    + split; [intros H; left; exact H|].
      intros [H | H]; [exact H|]. inversion H; subst.
      apply existsb_key_In. exact E.
    + rewrite in_app_iff. simpl. split.
      * intros [H | [H | []]]; [left; exact H | right; subst; reflexivity].
      * intros [H | H]; [left; exact H | right; left; congruence].
  - split; [intros H; left; exact H|]. intros [H | H]; [exact H | discriminate H].
Qed.

Lemma group_keys_from_NoDup (col : list cell) (acc : list key) :
  NoDup acc -> NoDup (fold_left add_key col acc).
Proof.
  revert acc. induction col as [|v col IH]; simpl; intros acc H; [exact H|].
  apply IH. apply add_key_NoDup. exact H.
Qed.

Lemma group_keys_from_In (col : list cell) (acc : list key) (k : key) :
  In k (fold_left add_key col acc) <->
  In k acc \/ exists v, In v col /\ key_of v = Some k.
Proof.
  revert acc. induction col as [|v col IH]; simpl; intros acc.
  - split; [intros H; left; exact H|]. intros [H | [v [[] _]]]. exact H.
  - rewrite IH, add_key_In. split.
    + intros [[H | H] | [u [Hu Hk]]].
      * left. exact H.
      * right. exists v. split; [left; reflexivity | exact H].
      * right. exists u. split; [right; exact Hu | exact Hk].
    + intros [H | [u [[Hu | Hu] Hk]]].
      * left. left. exact H.
      * subst u. left. right. exact Hk.
      * right. exists u. split; assumption.
Qed.

Lemma group_keys_NoDup (col : list cell) : NoDup (group_keys col).
Proof. apply (group_keys_from_NoDup col []). constructor. Qed.

Lemma group_keys_In (col : list cell) (k : key) :
  In k (group_keys col) <-> exists v, In v col /\ key_of v = Some k.
Proof.
  unfold group_keys. change (In k (fold_left add_key col []) <->
                             exists v, In v col /\ key_of v = Some k).
  rewrite group_keys_from_In. split.
  - intros [[] | H]. exact H.
  - intros H. right. exact H.
Qed.

Lemma total_tabulate_add (a b : key -> Z) (K : list key) :
  total (tabulate (fun k => a k + b k) K) =
  total (tabulate a K) + total (tabulate b K).
Proof. induction K as [|k K IH]; simpl; [reflexivity|]. rewrite IH. lia. Qed.

Lemma total_tabulate_zero (a : key -> Z) (K : list key) :
  (forall k, In k K -> a k = 0) -> total (tabulate a K) = 0.
Proof.
  induction K as [|k K IH]; simpl; intros H; [reflexivity|].
  rewrite (H k (or_introl eq_refl)), IH; [reflexivity|].
  intros k' Hk. apply H. right. exact Hk.
Qed.

(** Among distinct keys exactly one equals a key that is among them. *)
Lemma total_indicator (k' : key) (K : list key) :
  NoDup K -> In k' K ->
  total (tabulate (fun k => if key_eqb k k' then 1 else 0) K) = 1.
Proof.
  induction K as [|k K IH]; simpl; intros Hn Hi; [destruct Hi|].
  inversion Hn as [|? ? Hk HK]; subst.
  destruct Hi as [E | Hi].
  - subst k'. rewrite (proj2 (key_eqb_eq k k) eq_refl).
    rewrite total_tabulate_zero; [reflexivity|].
    intros k0 H0. destruct (key_eqb k0 k) eqn:E; [|reflexivity].
    apply key_eqb_eq in E. subst. contradiction.
  - destruct (key_eqb k k') eqn:E.
    + apply key_eqb_eq in E. subst. contradiction.
    + rewrite (IH HK Hi). reflexivity.
Qed.

(** Groups split the rows that have a key: the group sizes add up to the
    number of those rows. *)
Lemma group_sizes_total (K : list key) (col : list cell) :
  NoDup K ->
  (forall v k, In v col -> key_of v = Some k -> In k K) ->
  total (tabulate (fun k => count (in_group k) col) K) = count keyed col.
Proof.
  intros Hn. induction col as [|v col IH]; intros Hc.
  - unfold count. simpl. apply total_tabulate_zero. reflexivity.
  - rewrite count_cons.
    rewrite <- IH by (intros u k Hu; apply Hc; right; exact Hu).
    assert (E : total (tabulate (fun k => if in_group k v then 1 else 0) K)
                = if keyed v then 1 else 0).
    { unfold in_group, keyed. destruct (key_of v) as [k'|] eqn:Kv.
      - replace (is_null v) with false by (destruct v; [discriminate Kv|..]; reflexivity).
        apply total_indicator; [exact Hn|].
        apply (Hc v k'); [left; reflexivity | exact Kv].
      - replace (is_null v) with true by (destruct v; try discriminate Kv; reflexivity).
        apply total_tabulate_zero. reflexivity. }
    rewrite <- E, <- total_tabulate_add. f_equal. unfold tabulate.
    apply map_ext. intros k. rewrite count_cons. reflexivity.
Qed.

Lemma groupby_size_tabulate (df : DataFrame) (c : string) :
  has_column c df = true ->
  groupby_size df c =
    Ok (tabulate (fun k => count (in_group k) (map (field c) (rows df)))
          (group_keys (map (field c) (rows df)))).
Proof. intros H. unfold groupby_size, column. rewrite H. reflexivity. Qed.

Lemma groupby_size_total (df : DataFrame) (c : string) (s : series) :
  groupby_size df c = Ok s ->
  total s = count (fun r => keyed (field c r)) (rows df)
  /\ Forall (fun kv => 1 <= snd kv) s.
Proof.
  intros H. unfold groupby_size in H.
  destruct (column df c) as [col|e] eqn:C; [|discriminate H].
  apply column_Ok in C. destruct C as [Hc Hm]. subst col.
  simpl in H. inversion H; subst s; clear H.
  set (col := map (field c) (rows df)). split.
  - change (total (tabulate (fun k => count (in_group k) col) (group_keys col))
            = count (fun r => keyed (field c r)) (rows df)).
    rewrite group_sizes_total.
    + unfold col. apply count_map.
    + apply group_keys_NoDup.
    + intros v k Hv Hk. apply group_keys_In. exists v. split; assumption.
  - apply Forall_forall. intros [k n] Hin. apply in_map_iff in Hin.
    destruct Hin as [k0 [E Hk0]]. inversion E; subst. simpl.
    apply group_keys_In in Hk0. destruct Hk0 as [v [Hv Hk]].
    assert (Hf : In v (filter (in_group k) col)).
    { apply filter_In. split; [exact Hv|]. unfold in_group. rewrite Hk.
      apply key_eqb_eq. reflexivity. }
    destruct (filter (in_group k) col); [destruct Hf | simpl; lia].
Qed.

(** X15: The bars of Projects per Quarter: none is empty, and together they
    count the shown projects that have a quarter; when every shown project
    has one, they add up to the number on the Active Projects card. *)
Theorem quarter_bars_add_up (shown : DataFrame) (bars : series) :
  quarter_counts shown = Ok (Some bars) ->
  Forall (fun bar => 1 <= snd bar) bars
  /\ total bars = count (fun r => keyed (field "quarter_id" r)) (rows shown)
  /\ ((forall r, In r (rows shown) -> keyed (field "quarter_id" r) = true) ->
      active_projects_kpi shown =
        Ok (Metric "Active Projects" (VInt (total bars)))).
Proof.
  unfold quarter_counts.
  destruct (negb (empty shown) && has_column "quarter_id" shown) eqn:G;
    [|discriminate].
  destruct (groupby_size shown "quarter_id") as [s|e] eqn:S; [|discriminate].
  simpl. intros H. inversion H; subst bars; clear H.
  destruct (groupby_size_total _ _ _ S) as [Ht Hf].
  split; [exact Hf|]. split; [exact Ht|].
  intros Hall. unfold active_projects_kpi.
  apply andb_prop in G. destruct G as [He _]. rewrite He.
  rewrite Ht. unfold count, len. rewrite filter_all; [reflexivity | exact Hall].
Qed.

Lemma quarter_bars_add_up_witness :
  quarter_counts projects3 = Ok (Some [(KNum 1, 1); (KNum 2, 2)])
  /\ active_projects_kpi projects3 =
       Ok (Metric "Active Projects" (VInt (total [(KNum 1, 1); (KNum 2, 2)]))).
Proof.
  split; [reflexivity|].
  apply (quarter_bars_add_up projects3 _ eq_refl).
  intros r [H | [H | [H | []]]]; subst r; reflexivity.
Defined.

(** X16: Avg Team Size is the number of assignment rows that name a project
    over the number of distinct projects they name.  A project without
    assignments does not enter the mean, and when no row names a project
    the card shows 0.0. *)
Theorem avg_team_size_is_rows_per_project (assignments : DataFrame) :
  empty assignments = false ->
  has_column "project_id" assignments = true ->
  avg_team_size assignments =
    Ok (if 0 <? Z.of_nat (List.length
                            (group_keys (map (field "project_id")
                                           (rows assignments))))
        then truediv
               (count (fun r => keyed (field "project_id" r)) (rows assignments))
               (Z.of_nat (List.length
                            (group_keys (map (field "project_id")
                                           (rows assignments)))))
        else float_of_Z 0).
Proof.
  intros He Hp. unfold avg_team_size. rewrite He. simpl negb. cbv iota.
  pose proof (groupby_size_tabulate _ _ Hp) as S.
  destruct (groupby_size_total _ _ _ S) as [Ht _].
  rewrite S. simpl bind. unfold mean. rewrite Ht.
  unfold tabulate. rewrite length_map. reflexivity.
Qed.

Lemma avg_team_size_is_rows_per_project_witness :
  empty assignments4 = false
  /\ has_column "project_id" assignments4 = true
  /\ avg_team_size assignments4 = Ok (truediv 4 3).
Proof.
  split; [reflexivity|]. split; [reflexivity|].
  exact (avg_team_size_is_rows_per_project assignments4 eq_refl eq_refl).
Defined.

(** ** Attendance per meeting *)

Lemma sum_where (c : string) (f : record -> bool) (rws : list record) :
  existsb is_str (map (field c) rws) = false ->
  Pd.sum (map (field c) (filter f rws)) = Ok (amount_where c f rws).
Proof.
  induction rws as [|r rws IH]; [reflexivity|].
  simpl map. simpl existsb. intros H. apply orb_false_elim in H.
  destruct H as [Hr H]. cbn [filter amount_where fold_right].
  fold (amount_where c f rws). destruct (f r).
  - simpl map. simpl Pd.sum. rewrite (IH H). simpl bind.
    destruct (field c r); try reflexivity. discriminate Hr.
  - rewrite (IH H). reflexivity.
Qed.

Lemma select_map2 (A B : Type) (f : A -> bool) (g : A -> B) (l : list A) :
  select (map f l) (map g l) = map g (filter f l).
Proof.
  induction l as [|x l IH]; simpl; [reflexivity|].
  rewrite IH. destruct (f x); reflexivity.
Qed.

Lemma map_result_tabulate (f : key -> result (key * Z)) (a : key -> Z)
  (K : list key) :
  (forall k, f k = Ok (k, a k)) -> map_result f K = Ok (tabulate a K).
Proof.
  intros H. induction K as [|k K IH]; simpl; [reflexivity|].
  rewrite H, IH. reflexivity.
Qed.

Lemma total_weighted_indicator (w : Z) (k' : key) (K : list key) :
  NoDup K -> In k' K ->
  total (tabulate (fun k => if key_eqb k k' then w else 0) K) = w.
Proof.
  induction K as [|k K IH]; simpl; intros Hn Hi; [destruct Hi|].
  inversion Hn as [|? ? Hk HK]; subst.
  destruct Hi as [E | Hi].
  - subst k'. rewrite (proj2 (key_eqb_eq k k) eq_refl).
    rewrite total_tabulate_zero; [lia|].
    intros k0 H0. destruct (key_eqb k0 k) eqn:E; [|reflexivity].
    apply key_eqb_eq in E. subst. contradiction.
  - destruct (key_eqb k k') eqn:E.
    + apply key_eqb_eq in E. subst. contradiction.
    + rewrite (IH HK Hi). reflexivity.
Qed.

(** Groups split the amounts of the rows that have a key. *)
Lemma group_amounts_total (c by_ : string) (K : list key)
  (rws : list record) :
  NoDup K ->
  (forall r k, In r rws -> key_of (field by_ r) = Some k -> In k K) ->
  total (tabulate
           (fun k => amount_where c (fun r => in_group k (field by_ r)) rws) K)
  = amount_where c (fun r => keyed (field by_ r)) rws.
Proof.
  intros Hn. induction rws as [|r rws IH]; intros Hc.
  - simpl. apply total_tabulate_zero. reflexivity.
  - cbn [amount_where fold_right].
    fold (amount_where c (fun r => keyed (field by_ r)) rws).
    rewrite <- IH by (intros u k Hu; apply Hc; right; exact Hu).
    assert (E : total (tabulate
                         (fun k => if in_group k (field by_ r)
                                   then amount (field c r) else 0) K)
                = if keyed (field by_ r) then amount (field c r) else 0).
    { unfold in_group, keyed.
      destruct (key_of (field by_ r)) as [k'|] eqn:Kv.
      - replace (is_null (field by_ r)) with false
          by (destruct (field by_ r); [discriminate Kv|..]; reflexivity).
        apply total_weighted_indicator; [exact Hn|].
        apply (Hc r k'); [left; reflexivity | exact Kv].
      - replace (is_null (field by_ r)) with true
          by (destruct (field by_ r); try discriminate Kv; reflexivity).
        apply total_tabulate_zero. reflexivity. }
    rewrite <- E, <- total_tabulate_add. reflexivity.
Qed.

Lemma amount_where_all (c : string) (f : record -> bool)
  (rws : list record) :
  (forall r, In r rws -> f r = true) ->
  amount_where c f rws = amount_where c (fun _ => true) rws.
Proof.
  induction rws as [|r rws IH]; intros H; [reflexivity|].
  cbn [amount_where fold_right].
  fold (amount_where c f rws). fold (amount_where c (fun _ => true) rws).
  rewrite (H r (or_introl eq_refl)), IH; [reflexivity|].
  intros u Hu. apply H. right. exact Hu.
Qed.

Lemma filter_true (A : Type) (l : list A) : filter (fun _ => true) l = l.
Proof. apply filter_all. reflexivity. Qed.

(** X17: The attendance per meeting, which the third card of the GBMs tab
    averages, adds up to the attended total of the second card, when every
    attendance row names its meeting and that total is defined. *)
Theorem attendance_per_gbm_adds_up (attendance : DataFrame) (attended : Z) :
  has_column "gbm_id" attendance = true ->
  has_column "status" attendance = true ->
  (forall r, In r (rows attendance) -> keyed (field "gbm_id" r) = true) ->
  Pd.sum (map (field "status") (rows attendance)) = Ok attended ->
  exists per_gbm,
    groupby_sum attendance "gbm_id" "status" = Ok per_gbm
    /\ total per_gbm = attended.
Proof.
  intros Hg Hs Hall Hsum.
  assert (Ht : existsb is_str (map (field "status") (rows attendance))
               = false).
  { destruct (existsb is_str (map (field "status") (rows attendance))) eqn:E;
      [|reflexivity].
    rewrite (sum_text _ E) in Hsum. discriminate Hsum. }
  set (K := group_keys (map (field "gbm_id") (rows attendance))).
  exists (tabulate
            (fun k => amount_where "status"
                        (fun r => in_group k (field "gbm_id" r))
                        (rows attendance)) K).
  split.
  - unfold groupby_sum, column. rewrite Hg, Hs. simpl bind.
    apply map_result_tabulate. intros k.
    rewrite map_map, select_map2, (sum_where _ _ _ Ht). reflexivity.
  - rewrite group_amounts_total.
    + rewrite (amount_where_all _ _ _ Hall).
      pose proof (sum_where "status" (fun _ => true) _ Ht) as H.
      rewrite filter_true, Hsum in H. inversion H. reflexivity.
    + apply group_keys_NoDup.
    + intros r k Hr Hk. apply group_keys_In.
      exists (field "gbm_id" r). split; [apply in_map; exact Hr | exact Hk].
Qed.

Lemma attendance_per_gbm_adds_up_witness :
  Pd.sum (map (field "status") (rows attendance3)) = Ok 2
  /\ exists per_gbm,
       groupby_sum attendance3 "gbm_id" "status" = Ok per_gbm
       /\ total per_gbm = 2.
Proof.
  split; [reflexivity|].
  apply (attendance_per_gbm_adds_up attendance3 2);
    try reflexivity.
  intros r [H | [H | [H | []]]]; subst r; reflexivity.
Defined.

(** ** A selection that matches nothing *)

Lemma filter_none (A : Type) (f : A -> bool) (l : list A) :
  (forall x, In x l -> f x = false) -> filter f l = [].
Proof.
  induction l as [|x l IH]; simpl; intros H; [reflexivity|].
  rewrite (H x (or_introl eq_refl)). apply IH.
  intros y Hy. apply H. right. exact Hy.
Qed.

(** X18: Only the empty selection means no filter.  A selection that is not
    empty and matches no project leaves no row, and the Projects tab then
    shows 0 active projects and "N/A" on its three other cards. *)
Theorem unmatched_selection_blanks_tab (t : Tables)
  (selected_quarters : list cell) :
  empty (projects_df t) = false ->
  has_column "quarter_id" (projects_df t) = true ->
  selected_quarters <> [] ->
  (forall r, In r (rows (projects_df t)) ->
             quarter_in selected_quarters r = false) ->
  filtered_projects (projects_df t) selected_quarters =
    Ok (mkDataFrame (columns (projects_df t)) [])
  /\ projects_tab t selected_quarters =
       Ok [ Metric "Active Projects" (VInt 0);
            Metric "Avg Team Size" NA;
            Metric "Projects per Company" NA;
            Metric "Donated Projects" NA ].
Proof.
  intros He Hq Hs Hnone.
  destruct selected_quarters as [|c sel]; [congruence|].
  assert (H : filtered_projects (projects_df t) (c :: sel) =
              Ok (mkDataFrame (columns (projects_df t)) [])).
  { rewrite (filtered_projects_rows _ c sel He Hq).
    rewrite (filter_none _ _ _ Hnone). reflexivity. }
  split; [exact H|].
  unfold projects_tab. rewrite H. simpl bind.
  unfold tab1_kpis, active_projects_kpi, avg_team_size_kpi,
    projects_per_company_kpi, donated_projects_kpi, empty.
  simpl rows. simpl List.length. rewrite !orb_true_r. simpl negb.
  rewrite andb_false_r. reflexivity.
Qed.

Lemma unmatched_selection_blanks_tab_witness :
  empty projects3 = false
  /\ has_column "quarter_id" projects3 = true
  /\ projects_tab
       (mkTables projects3 members4 members4 DataFrame_empty attendance3
          assignments4) [Int 9]
     = Ok [ Metric "Active Projects" (VInt 0);
            Metric "Avg Team Size" NA;
            Metric "Projects per Company" NA;
            Metric "Donated Projects" NA ].
Proof.
  split; [reflexivity|]. split; [reflexivity|].
  assert (Hs : [Int 9] <> []) by discriminate.
  apply (unmatched_selection_blanks_tab
           (mkTables projects3 members4 members4 DataFrame_empty attendance3
              assignments4) [Int 9] eq_refl eq_refl Hs).
  intros r [H | [H | [H | []]]]; subst r; reflexivity.
Defined.

(** ** The shape of a loaded table *)

Lemma has_name_In (c : string) (names : list string) :
  has_name c names = true <-> In c names.
Proof.
  unfold has_name. rewrite existsb_exists. split.
  - intros [x [Hx E]]. apply String.eqb_eq in E. subst. exact Hx.
  - intros H. exists c. split; [exact H | apply String.eqb_refl].
Qed.

(** One step of [add_keys]. *)
Lemma add_keys_spec (r : record) (names : list string) :
  (NoDup names -> NoDup (add_keys names r))
  /\ forall k, In k (add_keys names r) <->
               In k names \/ exists v, In (k, v) r.
Proof.
  unfold add_keys. revert names.
  induction r as [|[k0 v0] r IH]; simpl; intros names.
  - split; [intros H; exact H|]. intros k. split.
    + intros H. left. exact H.
    + intros [H | [v []]]. exact H.
  - destruct (has_name k0 names) eqn:E.
    + destruct (IH names) as [Hn Hi]. split; [exact Hn|].
      intros k. rewrite Hi. split.
      * intros [H | [v H]]; [left; exact H | right; exists v; right; exact H].
      * intros [H | [v [H | H]]].
        -- left. exact H.
        -- inversion H; subst. left. apply has_name_In. exact E.
        -- right. exists v. exact H.
    + destruct (IH (names ++ [k0])%list) as [Hn Hi]. split.
      * intros H. apply Hn. apply NoDup_app; [exact H| |].
        -- constructor; [intros [] | constructor].
        -- intros x Hx [Hk | []]. subst x.
           apply has_name_In in Hx. rewrite Hx in E. discriminate E.
      * intros k. rewrite Hi, in_app_iff. simpl. split.
        -- intros [[H | [H | []]] | [v H]].
           ++ left. exact H.
           ++ subst. right. exists v0. left. reflexivity.
           ++ right. exists v. right. exact H.
        -- intros [H | [v [H | H]]].
           ++ left. left. exact H.
           ++ inversion H; subst. left. right. left. reflexivity.
           ++ right. exists v. exact H.
Qed.

Lemma from_records_columns (data : list record) (names : list string) :
  (NoDup names -> NoDup (fold_left add_keys data names))
  /\ forall k, In k (fold_left add_keys data names) <->
               In k names \/ exists r v, In r data /\ In (k, v) r.
Proof.
  revert names. induction data as [|r data IH]; simpl; intros names.
  - split; [intros H; exact H|]. intros k. split.
    + intros H. left. exact H.
    + intros [H | [r [v [[] _]]]]. exact H.
  - destruct (IH (add_keys names r)) as [Hn Hi].
    destruct (add_keys_spec r names) as [Hn' Hi']. split.
    + intros H. apply Hn, Hn', H.
    + intros k. rewrite Hi, Hi'. split.
      * intros [[H | [v H]] | [r' [v [Hr H]]]].
        -- left. exact H.
        -- right. exists r, v. split; [left; reflexivity | exact H].
        -- right. exists r', v. split; [right; exact Hr | exact H].
      * intros [H | [r' [v [[Hr | Hr] H]]]].
        -- left. left. exact H.
        -- subst r'. left. right. exists v. exact H.
        -- right. exists r', v. split; assumption.
Qed.

(** X19: The table built from a response has one row per record and one column
    per field name, without repeats; a field that some record carries is a
    column; and reading any column gives one cell per record. *)
Theorem loaded_table_shape (data : list record) :
  len (from_records data) = Z.of_nat (List.length data)
  /\ NoDup (columns (from_records data))
  /\ (forall c, has_column c (from_records data) = true <->
                exists r v, In r data /\ In (c, v) r)
  /\ (forall c col, column (from_records data) c = Ok col ->
                    List.length col = List.length data).
Proof.
  destruct (from_records_columns data []) as [Hn Hi].
  split; [reflexivity|]. split; [apply Hn; constructor|]. split.
  - intros c. unfold has_column. rewrite has_name_In. simpl. rewrite Hi.
    split; [intros [[] | H]; exact H | intros H; right; exact H].
  - intros c col H. apply column_Ok in H. destruct H as [_ H]. subst col.
    simpl. apply length_map.
Qed.
